(** * thonny/running.py: the backend proxy

    A shallow embedding of [_BackendProxy] (the supervisor of the backend
    process) and of the part of [Runner] that exposes it, followed by the
    properties of the message inbox, the state machine and the process
    life cycle. *)

From stdpp Require Import gmap strings list.

Open Scope string_scope.

(** ** Python values used by the proxy *)

(** A message is a Python mapping from field names to values; the fields the
    proxy looks at ([message_type], [stream_name], [data], [cwd]) are text. *)
Abbreviation Message := (gmap string string).

Inductive Exception :=
| KeyError (key : string)
| AttributeError (attr : string)
| OSError
| ProtocolError.

Inductive Result (A : Type) :=
| Ok (a : A)
| Raise (e : Exception).
Arguments Ok {A} a.
Arguments Raise {A} e.

#[global] Instance Result_ret : MRet Result := fun _ a => Ok a.
#[global] Instance Result_bind : MBind Result := fun _ _ f r =>
  match r with
  | Ok a => f a
  | Raise e => Raise e
  end.
#[global] Instance Result_fmap : FMap Result := fun _ _ f r =>
  match r with
  | Ok a => Ok (f a)
  | Raise e => Raise e
  end.

(** [msg[key]] *)
Definition getitem (msg : Message) (key : string) : Result string :=
  match msg !! key with
  | Some v => Ok v
  | None => Raise (KeyError key)
  end.

(** ** Commands *)

(** Modelled from the spec: the command classes of [thonny.common]
    ([ToplevelCommand], [DebuggerCommand], [InlineCommand],
    [InputSubmission]) are imported by running.py and not defined in it.
    They are the four variants of the spec's data model, with the fields it
    lists; the unspecified rest of a debugger or inline command is a payload
    of named text fields. *)
Inductive Command :=
| ToplevelCommand (command : string) (filename : option string)
    (args : option (list string)) (path : option string)
| DebuggerCommand (payload : gmap string string)
| InlineCommand (command : string) (payload : gmap string string)
| InputSubmission (data : string).

(** [getattr(cmd, "command", None)] *)
Definition cmd_command (cmd : Command) : option string :=
  match cmd with
  | ToplevelCommand c _ _ _ => Some c
  | DebuggerCommand p => p !! "command"
  | InlineCommand c _ => Some c
  | InputSubmission _ => None
  end.

(** [getattr(cmd, "filename", None)] *)
Definition cmd_filename (cmd : Command) : option string :=
  match cmd with
  | ToplevelCommand _ f _ _ => f
  | DebuggerCommand p => p !! "filename"
  | InlineCommand _ p => p !! "filename"
  | InputSubmission _ => None
  end.

(** [getattr(cmd, "args", None)]; only a top-level command carries a list. *)
Definition cmd_args (cmd : Command) : option (list string) :=
  match cmd with
  | ToplevelCommand _ _ a _ => a
  | _ => None
  end.

(** ** The host platform *)

(** What running.py takes from [thonny.common], [os], [sys], [str] and
    [subprocess]: these are the parameters of the development. *)
Class Platform := {
  serialize_message : Command -> string;
  parse_message : string -> Result Message;
  sys_executable : string;
  os_environ : gmap string string;
  os_path_exists : string -> bool;
  os_path_expanduser : string -> string;
  os_path_basename : string -> string;
  os_path_dirname : string -> string;
  os_path_join : string -> string -> string;
  str_lower : string -> string;
  str_replace : string -> string -> string -> string;
  str_contains : string -> string -> bool;
  str_strip : string -> string;
  (** whether the operating system launches this command line, in this
      directory, with this environment *)
  popen_launches : list string -> string -> gmap string string -> bool
}.

Definition COMMUNICATION_ENCODING : string := "UTF-8".

(** The one-character string written as a backslash followed by n in Python. *)
Definition newline : string := String (Ascii.ascii_of_nat 10) EmptyString.

(** ** Processes, effects and the proxy object *)

(** A [subprocess.Popen] object. [returncode] is what [poll()] answers:
    [None] while the process runs. *)
Record Popen := {
  pid : nat;
  popen_args : list string;
  popen_cwd : string;
  popen_env : gmap string string;
  returncode : option Z
}.

Definition poll (p : Popen) : option Z := returncode p.

(** The effects of the proxy on the outside, in the order they happen: the
    calls of [logging.info] and [logging.debug], and the operations on
    processes and on their standard input. *)
Inductive Event :=
| LogSending (cmd : Command)
| LogState (old : option string) (new : string)
| LogStarting (cmd_line : list string) (cwd : string)
| LogSent (state : option string) (cmd : Command)
| LogBackend (data : string)
| ProcSpawn (p : Popen)
| ProcKill (pid : nat)
| StdinWrite (pid : nat) (data : string)
| StdinFlush (pid : nat).

Record _BackendProxy := {
  cwd : string;
  thonny_dir : string;
  _proc : option Popen;
  _state : option string;
  _message_queue : option (list Message)
}.

(** The proxy object together with the trace of its effects and the next
    free process id. *)
Record World := {
  self : _BackendProxy;
  trace : list Event;
  next_pid : nat
}.

Definition with_self (f : _BackendProxy -> _BackendProxy) (w : World) : World :=
  {| self := f (self w); trace := trace w; next_pid := next_pid w |}.

Definition set_cwd (v : string) (w : World) : World :=
  with_self (fun s => {| cwd := v; thonny_dir := thonny_dir s; _proc := _proc s;
                         _state := _state s; _message_queue := _message_queue s |}) w.
Definition set_proc (v : option Popen) (w : World) : World :=
  with_self (fun s => {| cwd := cwd s; thonny_dir := thonny_dir s; _proc := v;
                         _state := _state s; _message_queue := _message_queue s |}) w.
Definition set_state_field (v : option string) (w : World) : World :=
  with_self (fun s => {| cwd := cwd s; thonny_dir := thonny_dir s; _proc := _proc s;
                         _state := v; _message_queue := _message_queue s |}) w.
Definition set_message_queue (v : option (list Message)) (w : World) : World :=
  with_self (fun s => {| cwd := cwd s; thonny_dir := thonny_dir s; _proc := _proc s;
                         _state := _state s; _message_queue := v |}) w.
Definition emit (e : Event) (w : World) : World :=
  {| self := self w; trace := (trace w ++ [e])%list; next_pid := next_pid w |}.

(** ** The monad of the methods: state and exceptions *)

Definition M (A : Type) : Type := World -> Result A * World.

#[global] Instance M_ret : MRet M := fun _ a w => (Ok a, w).
#[global] Instance M_bind : MBind M := fun _ _ f m w =>
  match m w with
  | (Ok a, w') => f a w'
  | (Raise e, w') => (Raise e, w')
  end.

Definition raise {A} (e : Exception) : M A := fun w => (Raise e, w).
Definition gets {A} (f : World -> A) : M A := fun w => (Ok (f w), w).
Definition modify (f : World -> World) : M unit := fun w => (Ok tt, f w).
Definition lift {A} (r : Result A) : M A := fun w => (r, w).
Definition when (b : bool) (m : M unit) : M unit := if b then m else mret tt.

(** ** The inbox: [fetch_next_message] *)

(** The test of the loop: [next_msg["message_type"] == "Output" and
    next_msg["stream_name"] == msg["stream_name"]]. *)
Definition same_output_stream (msg next_msg : Message) : Result bool :=
  mt ← getitem next_msg "message_type";
  if decide (mt = "Output") then
    sn' ← getitem next_msg "stream_name";
    sn ← getitem msg "stream_name";
    mret (bool_decide (sn' = sn))
  else mret false.

(** [msg["data"] += next_msg["data"]] *)
Definition iadd_data (msg next_msg : Message) : Result Message :=
  d ← getitem msg "data";
  d' ← getitem next_msg "data";
  mret (<["data" := d ++ d']> msg).

(** The [while True] loop of [fetch_next_message], on the content of the
    deque: every round pops one message, so the recursion is on the deque.
    It answers with the result and with what is left in the deque. *)
Fixpoint combine_output (msg : Message) (queue : list Message)
  : Result Message * list Message :=
  match queue with
  | [] => (Ok msg, [])
  | next_msg :: rest =>
      match same_output_stream msg next_msg with
      | Raise e => (Raise e, rest)
      | Ok false => (Ok msg, next_msg :: rest)
      | Ok true =>
          match iadd_data msg next_msg with
          | Raise e => (Raise e, rest)
          | Ok msg' => combine_output msg' rest
          end
      end
  end.

(** [fetch_next_message] (lines 209-233): [None] without a deque or with an
    empty one; otherwise the head is popped and, when it is output, the loop
    runs on the rest. *)
Definition fetch_next_message : M (option Message) := fun w =>
  match _message_queue (self w) with
  | None | Some [] => (Ok None, w)
  | Some (msg :: rest) =>
      match getitem msg "message_type" with
      | Raise e => (Raise e, set_message_queue (Some rest) w)
      | Ok mt =>
          if decide (mt = "Output") then
            let '(r, rest') := combine_output msg rest in
            (Some <$> r, set_message_queue (Some rest') w)
          else (Ok (Some msg), set_message_queue (Some rest) w)
      end
  end.

(** ** The methods of [_BackendProxy] *)

Section Proxy.
Context `{Platform}.

(** [_BackendProxy.__init__(default_cwd, main_dir)] *)
Definition __init__ (default_cwd main_dir : string) : _BackendProxy :=
  {| cwd := if os_path_exists default_cwd then default_cwd
            else os_path_expanduser "~";
     thonny_dir := main_dir;
     _proc := None;
     _state := None;
     _message_queue := None |}.

(** A world with a freshly constructed proxy and no effect yet. *)
Definition new_world (default_cwd main_dir : string) : World :=
  {| self := __init__ default_cwd main_dir; trace := []; next_pid := 0 |}.

(** [_BackendProxy.get_state] (lines 258-260); the lock is not modelled: every
    method and every listener round is one step. *)
Definition get_state : M (option string) := gets (fun w => _state (self w)).

(** [Runner.get_cwd] *)
Definition get_cwd : M string := gets (fun w => cwd (self w)).

(** [_set_state] (lines 262-265): a change of state is logged, then made. *)
Definition _set_state (state : string) : M unit := fun w =>
  if decide (_state (self w) = Some state) then (Ok tt, w)
  else (Ok tt, set_state_field (Some state) (emit (LogState (_state (self w)) state) w)).

(** [_kill_current_process] (lines 268-272) *)
Definition _kill_current_process : M unit := fun w =>
  match _proc (self w) with
  | Some p =>
      match poll p with
      | None =>
          (Ok tt, set_message_queue None (set_proc None (emit (ProcKill (pid p)) w)))
      | Some _ => (Ok tt, w)
      end
  | None => (Ok tt, w)
  end.

(** The command line of the backend, before the arguments of the command
    (lines 283-292). *)
Definition backend_cmd_line (thonny_dir : string) : list string :=
  if str_contains "thonny" (str_lower (os_path_basename sys_executable)) then
    [os_path_join (os_path_dirname sys_executable)
       (str_replace (os_path_basename sys_executable) "frontend" "backend")]
  else
    [sys_executable; "-u"; os_path_join thonny_dir "thonny_backend.py"].

(** [subprocess.Popen(cmd_line, ..., cwd=cwd, env=env)]: the new process, or
    [OSError] when the system does not launch it. *)
Definition subprocess_Popen (cmd_line : list string) (dir : string)
    (env : gmap string string) : M Popen := fun w =>
  if popen_launches cmd_line dir env then
    let p := {| pid := next_pid w; popen_args := cmd_line; popen_cwd := dir;
                popen_env := env; returncode := None |} in
    (Ok p, {| self := self w; trace := (trace w ++ [ProcSpawn p])%list;
              next_pid := S (next_pid w) |})
  else (Raise OSError, w).

(** The environment of the backend: [os.environ.copy()] with the two
    settings of [_start_new_process]. *)
Definition my_env : gmap string string :=
  <["PYTHONUNBUFFERED" := "1"]>
    (<["PYTHONIOENCODING" := COMMUNICATION_ENCODING]> os_environ).

(** [cmd_line] as [_start_new_process] passes it to [Popen]: the file name
    of the command is appended when it has one and, only then, its
    arguments when it has some. *)
Definition cmd_line_of (thonny_dir : string) (cmd : Command) : list string :=
  match cmd_filename cmd with
  | Some filename =>
      (backend_cmd_line thonny_dir ++ [filename] ++
         match cmd_args cmd with
         | Some args => args
         | None => []
         end)%list
  | None => backend_cmd_line thonny_dir
  end.

(** [_start_new_process] (lines 274-313). The two listener threads it starts
    are the rounds [_listen_stdout_iteration] and [_listen_stderr_iteration]
    below, taken in any order with the calls of the user. *)
Definition _start_new_process (cmd : Command) : M unit :=
  modify (set_message_queue (Some []));;
  dir ← gets (fun w => thonny_dir (self w));
  let cmd_line := cmd_line_of dir cmd in
  cwd ← gets (fun w => cwd (self w));
  modify (emit (LogStarting cmd_line cwd));;
  p ← subprocess_Popen cmd_line cwd my_env;
  modify (set_proc (Some p)).

(** [isinstance(cmd, InlineCommand) and cmd.command == "tkupdate"] *)
Definition is_tkupdate_inline (cmd : Command) : bool :=
  match cmd with
  | InlineCommand c _ => bool_decide (c = "tkupdate")
  | _ => false
  end.

(** [isinstance(cmd, ToplevelCommand) or isinstance(cmd, DebuggerCommand)
    or isinstance(cmd, InputSubmission)] *)
Definition forces_running (cmd : Command) : bool :=
  match cmd with
  | ToplevelCommand _ _ _ _ | DebuggerCommand _ | InputSubmission _ => true
  | InlineCommand _ _ => false
  end.

(** [isinstance(cmd, ToplevelCommand) and cmd.command in ("Run", "Debug",
    "Reset")] *)
Definition restarts_backend (cmd : Command) : bool :=
  match cmd with
  | ToplevelCommand c _ _ _ =>
      bool_decide (c = "Run") || bool_decide (c = "Debug") || bool_decide (c = "Reset")
  | _ => false
  end.

(** [self._proc.stdin.write(data)]: without a process object the attribute
    access fails; with one, the pipe takes the bytes (a pipe that breaks is
    not modelled). The text stands for its UTF-8 encoding. *)
Definition stdin_write (data : string) : M unit := fun w =>
  match _proc (self w) with
  | Some p => (Ok tt, emit (StdinWrite (pid p) data) w)
  | None => (Raise (AttributeError "stdin"), w)
  end.

(** [self._proc.stdin.flush()] *)
Definition stdin_flush : M unit := fun w =>
  match _proc (self w) with
  | Some p => (Ok tt, emit (StdinFlush (pid p)) w)
  | None => (Raise (AttributeError "stdin"), w)
  end.

(** [send_command] (lines 235-253) *)
Definition send_command (cmd : Command) : M unit :=
  when (negb (is_tkupdate_inline cmd)) (modify (emit (LogSending cmd)));;
  when (forces_running cmd) (_set_state "running");;
  when (restarts_backend cmd) (_kill_current_process;; _start_new_process cmd);;
  stdin_write (serialize_message cmd ++ newline);;
  stdin_flush;;
  when (negb (bool_decide (cmd_command cmd = Some "tkupdate")))
    (st ← gets (fun w => _state (self w)); modify (emit (LogSent st cmd))).

(** [send_program_input] (lines 255-256) *)
Definition send_program_input (data : string) : M unit :=
  send_command (InputSubmission data).

(** One round of the loop of [_listen_stdout] (lines 315-335), for the line
    [data] that
    [self._proc.stdout.readline().decode(COMMUNICATION_ENCODING)] gave. It
    answers [false] when the loop breaks. The round reads [self._proc] and
    [self._message_queue] as they are when it runs, as the thread does. *)
Definition _listen_stdout_iteration (data : string) : M bool :=
  proc ← gets (fun w => _proc (self w));
  match proc with
  | None => raise (AttributeError "stdout")
  | Some _ =>
      if decide (data = "") then mret false
      else
        msg ← lift (parse_message data);
        match msg !! "cwd" with
        | Some dir => modify (set_cwd dir)
        | None => mret tt
        end;;
        queue ← gets (fun w => _message_queue (self w));
        match queue with
        | None => raise (AttributeError "append")
        | Some q => modify (set_message_queue (Some (q ++ [msg])%list))
        end;;
        mt ← lift (getitem msg "message_type");
        (if decide (mt = "ToplevelResult") then _set_state "waiting_toplevel_command"
         else if decide (mt = "DebuggerProgress") then _set_state "waiting_debug_command"
         else if decide (mt = "InputRequest") then _set_state "waiting_input"
         else mret tt);;
        mret true
  end.

(** One round of the loop of [_listen_stderr] (lines 337-344). *)
Definition _listen_stderr_iteration (data : string) : M bool :=
  proc ← gets (fun w => _proc (self w));
  match proc with
  | None => raise (AttributeError "stderr")
  | Some _ =>
      if decide (data = "") then mret false
      else modify (emit (LogBackend (str_strip data)));; mret true
  end.

(** The backend process ends by itself with exit status [code]. *)
Definition backend_exits (code : Z) (w : World) : World :=
  match _proc (self w) with
  | Some p =>
      match returncode p with
      | None =>
          set_proc (Some {| pid := pid p; popen_args := popen_args p;
                            popen_cwd := popen_cwd p; popen_env := popen_env p;
                            returncode := Some code |}) w
      | Some _ => w
      end
  | None => w
  end.

(** ** Histories *)

(** What can happen to a proxy: the calls of its user, the rounds of its two
    listener threads, and the end of the backend process. An exception ends
    the call or the thread that raised it; the world stays as it was left. *)
Inductive Action :=
| DoSendCommand (cmd : Command)
| DoSendProgramInput (data : string)
| DoFetchNextMessage
| DoGetState
| DoStdoutLine (data : string)
| DoStderrLine (data : string)
| DoBackendExits (code : Z).

Definition perform (a : Action) (w : World) : World :=
  match a with
  | DoSendCommand cmd => snd (send_command cmd w)
  | DoSendProgramInput data => snd (send_program_input data w)
  | DoFetchNextMessage => snd (fetch_next_message w)
  | DoGetState => snd (get_state w)
  | DoStdoutLine data => snd (_listen_stdout_iteration data w)
  | DoStderrLine data => snd (_listen_stderr_iteration data w)
  | DoBackendExits code => backend_exits code w
  end.

Definition run (history : list Action) (w : World) : World :=
  foldl (fun w a => perform a w) w history.

End Proxy.

(** ** Messages and worlds of the examples *)

Definition Output (stream_name data : string) : Message :=
  {[ "message_type" := "Output"; "stream_name" := stream_name; "data" := data ]}.

Definition ToplevelResult : Message := {[ "message_type" := "ToplevelResult" ]}.

(** A world whose proxy holds the deque [queue] and nothing else. *)
Definition world_with_queue (queue : option (list Message)) : World :=
  {| self := {| cwd := "/"; thonny_dir := "/opt/thonny"; _proc := None;
                _state := None; _message_queue := queue |};
     trace := []; next_pid := 0 |}.

(** ** Vocabulary of the statements *)

(** The text of the [data] fields of [msgs], joined in order. *)
Definition joined_data (msgs : list Message) : string :=
  foldr (fun m acc => default "" (m !! "data") ++ acc) "" msgs.

(** [m] is an [Output] message on the stream [stream_name], with its data. *)
Definition output_on (stream_name : string) (m : Message) : Prop :=
  m !! "message_type" = Some "Output"
  ∧ m !! "stream_name" = Some stream_name
  ∧ is_Some (m !! "data").

(** [m] has a type and is not an [Output] message on the stream
    [stream_name]: another kind of message, or output on another stream. *)
Definition other_than_output_on (stream_name : string) (m : Message) : Prop :=
  ∃ mt, m !! "message_type" = Some mt
        ∧ (mt ≠ "Output"
           ∨ ∃ sn, m !! "stream_name" = Some sn ∧ sn ≠ stream_name).

(** ** Reading the trace and the spec's transition table *)

(** The state that the logged state changes [events] lead to from [state];
    [_set_state] logs every change it makes. *)
Fixpoint replay_state (state : option string) (events : list Event) : option string :=
  match events with
  | [] => state
  | LogState _ new :: events' => replay_state (Some new) events'
  | _ :: events' => replay_state state events'
  end.

(** Every write to a standard input in [events] happens while the state,
    followed from [state] along the logged changes, is [running]. *)
Fixpoint written_while_running (state : option string) (events : list Event) : bool :=
  match events with
  | [] => true
  | LogState _ new :: events' => written_while_running (Some new) events'
  | StdinWrite _ _ :: events' =>
      bool_decide (state = Some "running") && written_while_running state events'
  | _ :: events' => written_while_running state events'
  end.

Definition is_process_event (e : Event) : bool :=
  match e with
  | ProcSpawn _ | ProcKill _ => true
  | _ => false
  end.

Definition is_stdin_event (e : Event) : bool :=
  match e with
  | StdinWrite _ _ | StdinFlush _ => true
  | _ => false
  end.

(** The receive side of the state machine as the spec words it: the state
    after a message of type [message_type] arrived in state [state]. *)
Definition state_after_message (message_type : string) (state : option string)
  : option string :=
  if decide (message_type = "ToplevelResult") then Some "waiting_toplevel_command"
  else if decide (message_type = "DebuggerProgress") then Some "waiting_debug_command"
  else if decide (message_type = "InputRequest") then Some "waiting_input"
  else state.

(** The values [_state] takes. *)
Definition state_values : list (option string) :=
  [None; Some "running"; Some "waiting_input"; Some "waiting_debug_command";
   Some "waiting_toplevel_command"].

(** ** A sample platform *)

Definition sample_serialize (cmd : Command) : string :=
  match cmd with
  | ToplevelCommand c _ _ _ => "ToplevelCommand " ++ c
  | DebuggerCommand _ => "DebuggerCommand"
  | InlineCommand c _ => "InlineCommand " ++ c
  | InputSubmission d => "InputSubmission " ++ d
  end.

(** A codec of two lines: a top-level result, and output that reports a
    working directory. *)
Definition sample_parse (data : string) : Result Message :=
  if decide (data = "result") then Ok ToplevelResult
  else if decide (data = "output") then Ok (<["cwd" := "/tmp/x"]> (Output "stdout" "hi"))
  else Raise ProtocolError.

Definition sample_platform : Platform :=
  {| serialize_message := sample_serialize;
     parse_message := sample_parse;
     sys_executable := "/usr/bin/python3";
     os_environ := {[ "HOME" := "/home/user" ]};
     os_path_exists := fun _ => true;
     os_path_expanduser := fun _ => "/home/user";
     os_path_basename := fun _ => "python3";
     os_path_dirname := fun _ => "/usr/bin";
     os_path_join := fun a b => a ++ "/" ++ b;
     str_lower := fun s => s;
     str_replace := fun s _ _ => s;
     str_contains := fun _ _ => false;
     str_strip := fun s => s;
     popen_launches := fun _ _ _ => true |}.

Definition sample_world : World :=
  @new_world sample_platform "/home/user" "/opt/thonny".

Definition run_command : Command :=
  ToplevelCommand "Run" (Some "a.py") (Some ["1"; "2"]) None.

(** The sample world after a [Run] command started a backend. *)
Definition started_world : World :=
  @run sample_platform [DoSendCommand run_command] sample_world.

(** The started backend wrote a result and ended. *)
Definition exited_world : World :=
  @run sample_platform [DoStdoutLine "result"; DoBackendExits 0] started_world.

(** The command is not one of those that restart the backend. *)
Definition no_restart_command (cmd : Command) : Prop :=
  ∀ c f a p, cmd = ToplevelCommand c f a p → c ∉ ["Run"; "Debug"; "Reset"].

(** ** The whole loop of the output listener *)

Section Listener.
Context `{Platform}.

(** [_listen_stdout] (lines 315-335) on the lines [reads] that the
    successive calls of [readline] give, with nothing else happening in
    between: the loop ends at the empty line (the end of the stream) or with
    the exception of a round; when [reads] is used up the thread waits in
    [readline]. *)
Fixpoint _listen_stdout (reads : list string) : M unit :=
  match reads with
  | [] => mret tt
  | data :: reads' =>
      continue ← _listen_stdout_iteration data;
      if continue : bool then _listen_stdout reads' else mret tt
  end.

End Listener.

(** ** The runner *)

(** What [Runner] takes from [thonny.common] for the syntax of the shell:
    parameters, like the platform. *)
Class ShellSyntax := {
  parse_shell_command : string -> string * list string;
  unquote_path : string -> string
}.

(** The exceptions of the methods of [Runner]: those of the proxy, the
    [CommandSyntaxError] of the shell handlers with the arguments it is
    built from, and the failure of an [assert]. *)
Inductive RunnerException :=
| ProxyException (e : Exception)
| CommandSyntaxError (args : list string)
| AssertionError.

Inductive Outcome (A : Type) :=
| Returns (a : A)
| Raises (e : RunnerException).
Arguments Returns {A} a.
Arguments Raises {A} e.

(** The calls of [Runner] to the workbench, the shell view and the log, in
    the order they happen. *)
Inductive RunnerCall :=
| SaveAllNamedEditors
| SubmitCommand (cmd_line : string)
| LogFetched (msg : Message)
| EventGenerate (sequence : string) (msg : Message)
| SetOption (name value : string)
| UpdateIdletasks
| After (ms : nat) (callback : string).

(** The proxy of a runner with its world, and the calls the runner made. *)
Record RunnerWorld := {
  _proxy : World;
  calls : list RunnerCall
}.

Definition R (A : Type) : Type := RunnerWorld -> Outcome A * RunnerWorld.

#[global] Instance R_bind : MBind R := fun _ _ f m rw =>
  match m rw with
  | (Returns a, rw') => f a rw'
  | (Raises e, rw') => (Raises e, rw')
  end.

Definition raises {A} (e : RunnerException) : R A := fun rw => (Raises e, rw).

(** A call of the workbench or of the shell view. *)
Definition call (c : RunnerCall) : R unit := fun rw =>
  (Returns tt, {| _proxy := _proxy rw; calls := (calls rw ++ [c])%list |}).

(** A method of the proxy, called from the runner. *)
Definition on_proxy {A} (m : M A) : R A := fun rw =>
  match m (_proxy rw) with
  | (Ok a, w') => (Returns a, {| _proxy := w'; calls := calls rw |})
  | (Raise e, w') => (Raises (ProxyException e), {| _proxy := w'; calls := calls rw |})
  end.

Module Runner.
Section Methods.
Context `{Platform} `{ShellSyntax}.

(** [Runner.get_cwd] (lines 64-65) *)
Definition get_cwd : R string := on_proxy (gets (fun w => cwd (self w))).

(** [Runner.get_state] (lines 67-71) *)
Definition get_state : R (option string) := on_proxy get_state.

(** [Runner.send_command] (lines 73-74) *)
Definition send_command (cmd : Command) : R unit := on_proxy (send_command cmd).

(** [Runner.send_program_input] (lines 76-77) *)
Definition send_program_input (data : string) : R unit :=
  on_proxy (send_program_input data).

(** [handle_execute_from_shell] (lines 114-129) *)
Definition handle_execute_from_shell (cmd_line : string) : R unit :=
  let '(command, args) := parse_shell_command cmd_line in
  match args with
  | arg :: rest =>
      call SaveAllNamedEditors;;
      send_command (ToplevelCommand command (Some (unquote_path arg)) (Some rest) None)
  | [] =>
      raises (CommandSyntaxError ["Command '%s' takes at least one argument"; command])
  end.

(** [_handle_reset_from_shell] (lines 131-138) *)
Definition _handle_reset_from_shell (cmd_line : string) : R unit :=
  let '(command, args) := parse_shell_command cmd_line in
  if decide (command = "Reset") then
    match args with
    | [] => send_command (ToplevelCommand "Reset" None None None)
    | _ :: _ => raises (CommandSyntaxError ["Command 'Reset' doesn't take arguments"])
    end
  else raises AssertionError.



(** [_cmd_reset] (lines 158-162); [get_runner()] is this runner. *)
Definition _cmd_reset : R unit :=
  state ← get_state;
  if decide (state = Some "waiting_toplevel_command") then
    call (SubmitCommand ("%Reset" ++ newline))
  else send_command (ToplevelCommand "Reset" None None None).


(** The [while True] loop of [_poll_vm_messages] (lines 181-191), for at
    most [fuel] rounds; [None] when the rounds are used up. [not msg] holds
    for [None] and for a mapping with no field. *)
Fixpoint poll_loop (fuel : nat) (rw : RunnerWorld) : option (Outcome unit * RunnerWorld) :=
  match fuel with
  | 0 => None
  | S fuel' =>
      match on_proxy fetch_next_message rw with
      | (Raises e, rw') => Some (Raises e, rw')
      | (Returns None, rw') => Some (Returns tt, rw')
      | (Returns (Some msg), rw') =>
          if decide (msg = ∅) then Some (Returns tt, rw')
          else
            match
              (call (LogFetched msg);;
               sequence ← on_proxy (lift (getitem msg "message_type"));
               call (EventGenerate sequence msg);;
               dir ← get_cwd;
               call (SetOption "run.working_directory" dir);;
               call UpdateIdletasks) rw'
            with
            | (Raises e, rw'') => Some (Raises e, rw'')
            | (Returns _, rw'') => poll_loop fuel' rw''
            end
      end
  end.

(** The number of messages in the inbox. *)
Definition inbox_size (rw : RunnerWorld) : nat :=
  match _message_queue (self (_proxy rw)) with
  | Some queue => length queue
  | None => 0
  end.

(** [_poll_vm_messages] (lines 176-193), run with no listener round in
    between: every round of the loop takes at least one message from the
    inbox, so one round more than the inbox has messages is enough. *)
Definition _poll_vm_messages (rw : RunnerWorld) : option (Outcome unit * RunnerWorld) :=
  match poll_loop (S (inbox_size rw)) rw with
  | Some (Returns _, rw') => Some (call (After 50 "_poll_vm_messages") rw')
  | other => other
  end.

End Methods.
End Runner.

(** ** Vocabulary of the further statements *)

(** [m] has a type and, when it is output, a stream and data. *)
Definition well_formed (m : Message) : Prop :=
  ∃ mt, m !! "message_type" = Some mt
        ∧ (mt = "Output" → is_Some (m !! "stream_name") ∧ is_Some (m !! "data")).

Definition is_output (m : Message) : bool :=
  bool_decide (m !! "message_type" = Some "Output").

Definition on_stream (stream_name : string) (m : Message) : bool :=
  is_output m && bool_decide (m !! "stream_name" = Some stream_name).

(** The text that [msgs] carry on the stream [stream_name], in order. *)
Fixpoint stream_text (stream_name : string) (msgs : list Message) : string :=
  match msgs with
  | [] => ""
  | m :: msgs' =>
      if on_stream stream_name m
      then default "" (m !! "data") ++ stream_text stream_name msgs'
      else stream_text stream_name msgs'
  end.

(** The messages of [msgs] that are not output, in order. *)
Fixpoint other_messages (msgs : list Message) : list Message :=
  match msgs with
  | [] => []
  | m :: msgs' => if is_output m then other_messages msgs' else m :: other_messages msgs'
  end.

(** No two neighbours in [msgs] are output on the same stream. *)
Fixpoint fully_coalesced (msgs : list Message) : Prop :=
  match msgs with
  | m1 :: (m2 :: _) as msgs' =>
      (∀ sn, on_stream sn m1 = true → on_stream sn m2 = false) ∧ fully_coalesced msgs'
  | _ => True
  end.

(** The messages that [calls] handed to [event_generate], in order. *)
Fixpoint generated (calls : list RunnerCall) : list Message :=
  match calls with
  | [] => []
  | EventGenerate _ msg :: calls' => msg :: generated calls'
  | _ :: calls' => generated calls'
  end.

Definition is_after (c : RunnerCall) : bool :=
  match c with
  | After _ _ => true
  | _ => false
  end.

(** The process ids of the spawns and of the kills in a trace, in order. *)
Fixpoint spawned (events : list Event) : list nat :=
  match events with
  | [] => []
  | ProcSpawn p :: events' => pid p :: spawned events'
  | _ :: events' => spawned events'
  end.

Fixpoint killed (events : list Event) : list nat :=
  match events with
  | [] => []
  | ProcKill n :: events' => n :: killed events'
  | _ :: events' => killed events'
  end.

(** The process ids written to in a trace, in order. *)
Fixpoint written_to (events : list Event) : list nat :=
  match events with
  | [] => []
  | StdinWrite n _ :: events' => n :: written_to events'
  | _ :: events' => written_to events'
  end.

(** The state is one of the three that wait for the user. *)
Definition waiting (state : option string) : Prop :=
  state = Some "waiting_toplevel_command"
  ∨ state = Some "waiting_debug_command"
  ∨ state = Some "waiting_input".

Definition is_stdout_round (a : Action) : bool :=
  match a with
  | DoStdoutLine _ => true
  | _ => false
  end.

(** A sample shell syntax: the command is the text before the first blank,
    given here for the three lines of the examples. *)
Definition sample_shell : ShellSyntax :=
  {| parse_shell_command := fun cmd_line =>
       if decide (cmd_line = "%Run a.py 1") then ("Run", ["a.py"; "1"])
       else if decide (cmd_line = "%Reset") then ("Reset", [])
       else if decide (cmd_line = "%cd /tmp") then ("cd", ["/tmp"])
       else (cmd_line, []);
     unquote_path := fun s => s |}.

Definition sample_runner (w : World) : RunnerWorld := {| _proxy := w; calls := [] |}.

(** ** Tactics *)

Ltac proxy_cbn :=
  cbn [self trace next_pid cwd thonny_dir _proc _state _message_queue negb fst snd
       pid returncode] in *.

Ltac unfold_proxy :=
  unfold send_program_input, send_command, _start_new_process, _kill_current_process,
    _set_state, stdin_write, stdin_flush, subprocess_Popen, get_state, get_cwd,
    when, modify, gets, lift, raise, poll in *;
  unfold mbind, M_bind, mret, M_ret in *;
  unfold set_proc, set_message_queue, set_state_field, set_cwd, emit, with_self in *;
  proxy_cbn.

(** The decisions [send_command] takes: the tests on the command, whether
    the state is [running] already, whether a process is there and runs, and
    whether the system launches the new one. *)
Ltac send_cases cmd w :=
  destruct w as [[dir tdir proc st q] tr np];
  unfold send_command;
  destruct (is_tkupdate_inline cmd) eqn:Htk, (forces_running cmd) eqn:Hfr,
    (restarts_backend cmd) eqn:Hrs,
    (bool_decide (cmd_command cmd = Some "tkupdate")) eqn:Hcc;
  unfold_proxy;
  destruct (decide (st = Some "running")) as [Hst|Hst];
  destruct proc as [[ppid pargs pcwd penv [rc|]]|];
  proxy_cbn;
  try (destruct (popen_launches _ _ _) eqn:Hlaunch);
  proxy_cbn.

Ltac trace_suffix :=
  rewrite <- ?app_assoc;
  first [ eexists; split; [reflexivity|]
        | exists []; split; [by rewrite app_nil_r|] ].

Ltac elem_of_list :=
  solve [ repeat first [ apply list_elem_of_here | apply list_elem_of_further ] ].

(** The decisions of one round of a listener: the process handle, the end of
    the stream, the parse, the [cwd] field, the deque, the type of the
    message and whether the state changes. *)
Ltac listen_cases data w :=
  destruct w as [[dir tdir proc st q] tr np];
  unfold _listen_stdout_iteration, _listen_stderr_iteration, getitem;
  unfold_proxy;
  destruct proc as [pr|]; proxy_cbn;
  [ destruct (decide (data = "")) as [Hdata|Hdata]; proxy_cbn;
    [ | destruct (parse_message data) as [msg'|err] eqn:Hparse; proxy_cbn;
        [ destruct (msg' !! "cwd") as [newdir|] eqn:Hcwd; proxy_cbn;
          (destruct q as [qu|]; proxy_cbn;
           [ destruct (msg' !! "message_type") as [mt'|] eqn:Hmt; proxy_cbn;
             [ destruct (decide (mt' = "ToplevelResult")) as [Htr|Htr];
               [ | destruct (decide (mt' = "DebuggerProgress")) as [Hdp|Hdp];
                   [ | destruct (decide (mt' = "InputRequest")) as [Hir|Hir] ] ];
               proxy_cbn;
               try (destruct (decide (st = Some _)) as [Hst|Hst]; proxy_cbn)
             | ]
           | ])
        | ] ]
  | ].

(** A trace read as the life of the backend processes. [next] is the id the
    next spawn takes, [current] the process spawned last, unless it was
    killed since. The reading fails when a spawn takes another id, or when a
    kill, a write or a flush goes to another process than the current one. *)
Fixpoint supervise (next : nat) (current : option nat) (events : list Event)
  : option (nat * option nat) :=
  match events with
  | [] => Some (next, current)
  | ProcSpawn p :: events' =>
      if decide (pid p = next) then supervise (S next) (Some (pid p)) events' else None
  | ProcKill n :: events' =>
      if decide (current = Some n) then supervise next None events' else None
  | StdinWrite n _ :: events' =>
      if decide (current = Some n) then supervise next current events' else None
  | StdinFlush n :: events' =>
      if decide (current = Some n) then supervise next current events' else None
  | _ :: events' => supervise next current events'
  end.

(** The handle, the inbox and the state agree: a process handle comes with
    an inbox, and a state that waits for the user comes with a process
    handle. *)
Definition coherent (w : World) : Prop :=
  (is_Some (_proc (self w)) → is_Some (_message_queue (self w)))
  ∧ (waiting (_state (self w)) → is_Some (_proc (self w))).

Ltac coherent_solve :=
  unfold coherent, waiting in *; proxy_cbn;
  repeat split; intros; destruct_and?; destruct_or?; simplify_eq;
  try done; eauto using mk_is_Some.

(** A platform like the sample one whose system launches nothing. *)
Definition refusing_platform : Platform :=
  {| serialize_message := sample_serialize;
     parse_message := sample_parse;
     sys_executable := "/usr/bin/python3";
     os_environ := ∅;
     os_path_exists := fun _ => true;
     os_path_expanduser := fun _ => "/home/user";
     os_path_basename := fun _ => "python3";
     os_path_dirname := fun _ => "/usr/bin";
     os_path_join := fun a b => a ++ "/" ++ b;
     str_lower := fun s => s;
     str_replace := fun s _ _ => s;
     str_contains := fun _ _ => false;
     str_strip := fun s => s;
     popen_launches := fun _ _ _ => false |}.

(** The line [line] is not the end of the stream and decodes to [msg], a
    message with a type. *)
Definition reads_as `{Platform} (line : string) (msg : Message) : Prop :=
  line ≠ "" ∧ parse_message line = Ok msg ∧ is_Some (msg !! "message_type").

(** The type of a message, empty when it has none. *)
Definition type_of (msg : Message) : string := default "" (msg !! "message_type").


(** * Properties *)

(** ** The inbox *)

Lemma str_app_nil_r (s : string) : s ++ "" = s.
Proof.
  induction s as [|c s IH]; [done|].
  change (String c (s ++ "") = String c s). by rewrite IH.
Qed.

Lemma str_app_assoc (s1 s2 s3 : string) : (s1 ++ s2) ++ s3 = s1 ++ (s2 ++ s3).
Proof.
  induction s1 as [|c s1 IH]; [done|].
  change (String c ((s1 ++ s2) ++ s3) = String c (s1 ++ (s2 ++ s3))). by rewrite IH.
Qed.

Lemma getitem_Some (msg : Message) key v : msg !! key = Some v → getitem msg key = Ok v.
Proof. intros Hk. unfold getitem. by rewrite Hk. Qed.

Lemma same_output_stream_true (msg next_msg : Message) sn :
  msg !! "stream_name" = Some sn → output_on sn next_msg →
  same_output_stream msg next_msg = Ok true.
Proof.
  intros Hsn (Hmt & Hsn' & _). unfold same_output_stream.
  rewrite (getitem_Some _ _ _ Hmt). simpl.
  rewrite (getitem_Some _ _ _ Hsn'), (getitem_Some _ _ _ Hsn). simpl.
  unfold mret, Result_ret. by rewrite bool_decide_eq_true_2.
Qed.

Lemma same_output_stream_false (msg next_msg : Message) sn :
  msg !! "stream_name" = Some sn → other_than_output_on sn next_msg →
  same_output_stream msg next_msg = Ok false.
Proof.
  intros Hsn (mt & Hmt & Hother). unfold same_output_stream.
  rewrite (getitem_Some _ _ _ Hmt). simpl.
  destruct (decide (mt = "Output")) as [->|Hne]; [|done].
  destruct Hother as [?|(sn' & Hsn' & Hdiff)]; [done|].
  rewrite (getitem_Some _ _ _ Hsn'), (getitem_Some _ _ _ Hsn). simpl.
  unfold mret, Result_ret. by rewrite bool_decide_eq_false_2.
Qed.

(** A run of output on the stream of [msg] is folded into [msg]. *)
Lemma combine_output_run (mids : list Message) :
  ∀ (msg : Message) sn d0 (tail : list Message),
    msg !! "stream_name" = Some sn → msg !! "data" = Some d0 →
    Forall (output_on sn) mids →
    combine_output msg (mids ++ tail)
    = combine_output (<["data" := d0 ++ joined_data mids]> msg) tail.
Proof.
  induction mids as [|m mids IH]; intros msg sn d0 tail Hsn Hd Hall.
  - change (joined_data []) with "". rewrite str_app_nil_r. by rewrite insert_id.
  - change (joined_data (m :: mids)) with (default "" (m !! "data") ++ joined_data mids).
    apply Forall_cons in Hall as [Hm Hall]. simpl.
    rewrite (same_output_stream_true _ _ _ Hsn Hm).
    destruct Hm as (_ & _ & [dm Hdm]). unfold iadd_data.
    rewrite (getitem_Some _ _ _ Hd), (getitem_Some _ _ _ Hdm). simpl.
    rewrite (IH _ sn (d0 ++ dm)); [| by rewrite lookup_insert_ne | by rewrite lookup_insert_eq | done].
    rewrite insert_insert_eq, Hdm. simpl. by rewrite str_app_assoc.
Qed.

Lemma combine_output_stop (msg next_msg : Message) sn (rest : list Message) :
  msg !! "stream_name" = Some sn → other_than_output_on sn next_msg →
  combine_output msg (next_msg :: rest) = (Ok msg, next_msg :: rest).
Proof. intros Hsn Hnext. simpl. by rewrite (same_output_stream_false _ _ _ Hsn Hnext). Qed.

Lemma fetch_non_output (w : World) (msg : Message) (rest : list Message) mt :
  _message_queue (self w) = Some (msg :: rest) →
  msg !! "message_type" = Some mt → mt ≠ "Output" →
  fetch_next_message w = (Ok (Some msg), set_message_queue (Some rest) w).
Proof.
  intros Hq Hmt Hne. unfold fetch_next_message.
  rewrite Hq, (getitem_Some _ _ _ Hmt). by destruct (decide (mt = "Output")).
Qed.

(** C1. With [Output stdout a], [Output stdout b] and [ToplevelResult] in
    the inbox, in this order, [fetch_next_message] returns the single message
    [Output stdout ab], and the next call returns the [ToplevelResult]
    message; and whenever the message at the head is not an [Output]
    message, it is returned as it is and only it leaves the inbox. *)
Theorem fetch_next_message_coalesces (w : World) :
  (_message_queue (self w)
     = Some [Output "stdout" "a"; Output "stdout" "b"; ToplevelResult] →
   fetch_next_message w
     = (Ok (Some (Output "stdout" "ab")), set_message_queue (Some [ToplevelResult]) w)
   ∧ fetch_next_message (set_message_queue (Some [ToplevelResult]) w)
     = (Ok (Some ToplevelResult), set_message_queue (Some []) w))
  ∧ (∀ (msg : Message) (rest : list Message) (mt : string),
       _message_queue (self w) = Some (msg :: rest) →
       msg !! "message_type" = Some mt → mt ≠ "Output" →
       fetch_next_message w = (Ok (Some msg), set_message_queue (Some rest) w)).
Proof.
  split.
  - intros Hq. split.
    + unfold fetch_next_message. rewrite Hq. vm_compute; reflexivity.
    + vm_compute; reflexivity.
  - intros msg rest mt. apply fetch_non_output.
Qed.

Lemma fetch_next_message_coalesces_witness :
  fetch_next_message
    (world_with_queue (Some [Output "stdout" "a"; Output "stdout" "b"; ToplevelResult]))
  = (Ok (Some (Output "stdout" "ab")), world_with_queue (Some [ToplevelResult]))
  ∧ fetch_next_message (world_with_queue (Some [ToplevelResult; Output "stdout" "c"]))
    = (Ok (Some ToplevelResult), world_with_queue (Some [Output "stdout" "c"])).
Proof.
  split.
  - apply (proj1 (fetch_next_message_coalesces
                    (world_with_queue
                       (Some [Output "stdout" "a"; Output "stdout" "b"; ToplevelResult])))).
    reflexivity.
  - apply (proj2 (fetch_next_message_coalesces
                    (world_with_queue (Some [ToplevelResult; Output "stdout" "c"])))
             ToplevelResult [Output "stdout" "c"] "ToplevelResult").
    + reflexivity.
    + reflexivity.
    + discriminate.
Defined.

(** C2. When the head of the inbox is an [Output] message,
    [fetch_next_message] folds into it the output that follows on the same
    stream and stops at the first message that is not output on that stream:
    this message stays at the head of the inbox. So [Output stdout x]
    followed by [Output stderr y] comes out as two messages, in order. *)
Theorem fetch_next_message_separates_streams :
  (∀ (w : World) (head next_msg : Message) (mids rest : list Message)
     (sn d0 : string),
     _message_queue (self w) = Some (head :: mids ++ next_msg :: rest) →
     head !! "message_type" = Some "Output" →
     head !! "stream_name" = Some sn →
     head !! "data" = Some d0 →
     Forall (output_on sn) mids →
     other_than_output_on sn next_msg →
     fetch_next_message w
     = (Ok (Some (<["data" := d0 ++ joined_data mids]> head)),
        set_message_queue (Some (next_msg :: rest)) w))
  ∧ fetch_next_message
      (world_with_queue (Some [Output "stdout" "x"; Output "stderr" "y"]))
    = (Ok (Some (Output "stdout" "x")), world_with_queue (Some [Output "stderr" "y"]))
  ∧ fetch_next_message (world_with_queue (Some [Output "stderr" "y"]))
    = (Ok (Some (Output "stderr" "y")), world_with_queue (Some [])).
Proof.
  split; [|split; vm_compute; reflexivity].
  intros w head next_msg mids rest sn d0 Hq Hmt Hsn Hd Hmids Hnext.
  unfold fetch_next_message. rewrite Hq, (getitem_Some _ _ _ Hmt).
  destruct (decide ("Output" = "Output")) as [_|]; [|done].
  rewrite (combine_output_run mids head sn d0 (next_msg :: rest) Hsn Hd Hmids).
  rewrite (combine_output_stop _ next_msg sn rest); [done | | done].
  by rewrite lookup_insert_ne.
Qed.

Lemma fetch_next_message_separates_streams_witness :
  fetch_next_message
    (world_with_queue
       (Some [Output "stdout" "x"; Output "stdout" "y"; Output "stderr" "z";
              ToplevelResult]))
  = (Ok (Some (Output "stdout" "xy")),
     world_with_queue (Some [Output "stderr" "z"; ToplevelResult])).
Proof.
  assert (<["data" := "x" ++ joined_data [Output "stdout" "y"]]> (Output "stdout" "x")
          = Output "stdout" "xy") as <- by (vm_compute; reflexivity).
  apply (proj1 fetch_next_message_separates_streams
           (world_with_queue
              (Some [Output "stdout" "x"; Output "stdout" "y"; Output "stderr" "z";
                     ToplevelResult]))
           (Output "stdout" "x") (Output "stderr" "z") [Output "stdout" "y"]
           [ToplevelResult] "stdout" "x").
  - reflexivity.
  - reflexivity.
  - reflexivity.
  - reflexivity.
  - repeat constructor. by exists "y".
  - exists "Output". split; [reflexivity|]. right. exists "stderr".
    split; [reflexivity | discriminate].
Defined.


(** ** Sending a command *)

Lemma send_command_state `{Platform} (cmd : Command) (w : World) :
  _state (self (snd (send_command cmd w)))
  = if forces_running cmd then Some "running" else _state (self w).
Proof. send_cases cmd w; done. Qed.

Lemma send_command_trace `{Platform} (cmd : Command) (w : World) :
  ∃ evs, trace (snd (send_command cmd w)) = (trace w ++ evs)%list
    ∧ replay_state (_state (self w)) evs = _state (self (snd (send_command cmd w)))
    ∧ (forces_running cmd = true → written_while_running (_state (self w)) evs = true)
    ∧ (fst (send_command cmd w) = Ok tt →
       ∃ p, _proc (self (snd (send_command cmd w))) = Some p
            ∧ StdinWrite (pid p) (serialize_message cmd ++ newline) ∈ evs).
Proof.
  send_cases cmd w; trace_suffix; subst; simpl.
  all: repeat split; try done.
  all: intros _; eexists; split; [reflexivity|]; elem_of_list.
Qed.

(** C3. [send_command] leaves the state at [running] when the command is a
    [ToplevelCommand], a [DebuggerCommand] or an [InputSubmission], and
    leaves the state as it was when the command is an [InlineCommand]. The
    events of the call extend the trace; the state changes logged in them
    lead from the old state to the new one; for the three kinds that force
    [running], every write to the standard input of the backend happens once
    the state is [running]; and a call that returns has written the line of
    the command to the standard input of the current backend. *)
Theorem send_command_state_transition `{Platform} (w : World) :
  (∀ c f a p,
     _state (self (snd (send_command (ToplevelCommand c f a p) w))) = Some "running")
  ∧ (∀ payload,
       _state (self (snd (send_command (DebuggerCommand payload) w))) = Some "running")
  ∧ (∀ data,
       _state (self (snd (send_command (InputSubmission data) w))) = Some "running")
  ∧ (∀ c payload,
       _state (self (snd (send_command (InlineCommand c payload) w))) = _state (self w))
  ∧ (∀ cmd, ∃ evs,
       trace (snd (send_command cmd w)) = (trace w ++ evs)%list
       ∧ replay_state (_state (self w)) evs = _state (self (snd (send_command cmd w)))
       ∧ (forces_running cmd = true →
          written_while_running (_state (self w)) evs = true)
       ∧ (fst (send_command cmd w) = Ok tt →
          ∃ p, _proc (self (snd (send_command cmd w))) = Some p
               ∧ StdinWrite (pid p) (serialize_message cmd ++ newline) ∈ evs)).
Proof.
  repeat split; intros; try (by rewrite send_command_state).
  apply send_command_trace.
Qed.

Lemma send_command_state_transition_witness :
  ∃ evs,
    trace (snd (@send_command sample_platform (InputSubmission "42") started_world))
    = (trace started_world ++ evs)%list
    ∧ written_while_running (_state (self started_world)) evs = true
    ∧ StdinWrite 0 (sample_serialize (InputSubmission "42") ++ newline) ∈ evs.
Proof.
  destruct (proj2 (proj2 (proj2 (proj2
              (@send_command_state_transition sample_platform started_world))))
              (InputSubmission "42"))
    as (evs & Htrace & _ & Hrunning & Hwritten).
  exists evs. split; [exact Htrace|]. split; [exact (Hrunning eq_refl)|].
  destruct (Hwritten ltac:(vm_compute; reflexivity)) as (p & Hp & Hin).
  assert (pid p = 0) as Hpid.
  { assert (_proc (self (snd (@send_command sample_platform (InputSubmission "42")
                                 started_world)))
            = _proc (self started_world)) as Hsame by (vm_compute; reflexivity).
    rewrite Hsame in Hp. vm_compute in Hp. by injection Hp as <-. }
  by rewrite Hpid in Hin.
Defined.

(** ** The output listener *)

(** C4. When the output listener decodes a line into a message that has a
    type and appends it to the inbox, the round succeeds, the message is the
    new last element of the inbox, and the new state is the one the
    transition table gives for the type of the message: [ToplevelResult]
    gives [waiting_toplevel_command], [DebuggerProgress] gives
    [waiting_debug_command], [InputRequest] gives [waiting_input], and any
    other type leaves the state as it was. *)
Theorem listen_stdout_state_transition `{Platform} (w : World) (data : string)
    (msg : Message) (mt : string) (p : Popen) (queue : list Message) :
  _proc (self w) = Some p → data ≠ "" → parse_message data = Ok msg →
  msg !! "message_type" = Some mt → _message_queue (self w) = Some queue →
  fst (_listen_stdout_iteration data w) = Ok true
  ∧ _message_queue (self (snd (_listen_stdout_iteration data w)))
    = Some (queue ++ [msg])%list
  ∧ _state (self (snd (_listen_stdout_iteration data w)))
    = state_after_message mt (_state (self w))
  ∧ (mt = "ToplevelResult" →
     _state (self (snd (_listen_stdout_iteration data w)))
     = Some "waiting_toplevel_command")
  ∧ (mt = "DebuggerProgress" →
     _state (self (snd (_listen_stdout_iteration data w)))
     = Some "waiting_debug_command")
  ∧ (mt = "InputRequest" →
     _state (self (snd (_listen_stdout_iteration data w))) = Some "waiting_input")
  ∧ (mt ≠ "ToplevelResult" → mt ≠ "DebuggerProgress" → mt ≠ "InputRequest" →
     _state (self (snd (_listen_stdout_iteration data w))) = _state (self w)).
Proof.
  intros Hp Hne Hmsg Hty Hqueue.
  assert (fst (_listen_stdout_iteration data w) = Ok true
          ∧ _message_queue (self (snd (_listen_stdout_iteration data w)))
            = Some (queue ++ [msg])%list
          ∧ _state (self (snd (_listen_stdout_iteration data w)))
            = state_after_message mt (_state (self w))) as (Hok & Happ & Hstate).
  { unfold state_after_message.
    listen_cases data w; simplify_eq/=; try done.
    all: repeat case_decide; done. }
  rewrite Hstate. repeat split; try done.
  - by intros ->.
  - by intros ->.
  - by intros ->.
  - intros H1 H2 H3. unfold state_after_message. by repeat case_decide.
Qed.

Lemma listen_stdout_state_transition_witness :
  fst (@_listen_stdout_iteration sample_platform "result" started_world) = Ok true
  ∧ _state (self (snd (@_listen_stdout_iteration sample_platform "result" started_world)))
    = Some "waiting_toplevel_command".
Proof.
  edestruct (@listen_stdout_state_transition sample_platform started_world "result"
               ToplevelResult "ToplevelResult")
    as (Hok & _ & _ & Hstate & _).
  - vm_compute. reflexivity.
  - discriminate.
  - reflexivity.
  - reflexivity.
  - vm_compute. reflexivity.
  - split; [exact Hok | exact (Hstate eq_refl)].
Defined.

(** C7. When the output listener decodes a line into a message, the
    directory the proxy tracks, which [get_cwd] returns, becomes the [cwd]
    field of the message when it has one, whatever the type of the message
    and whatever happens in the rest of the round; it stays as it was when
    the message has no [cwd] field. *)
Theorem listen_stdout_cwd `{Platform} (w : World) (data : string) (msg : Message)
    (p : Popen) :
  _proc (self w) = Some p → data ≠ "" → parse_message data = Ok msg →
  (∀ dir, msg !! "cwd" = Some dir →
     cwd (self (snd (_listen_stdout_iteration data w))) = dir
     ∧ fst (get_cwd (snd (_listen_stdout_iteration data w))) = Ok dir)
  ∧ (msg !! "cwd" = None →
     cwd (self (snd (_listen_stdout_iteration data w))) = cwd (self w)
     ∧ fst (get_cwd (snd (_listen_stdout_iteration data w))) = Ok (cwd (self w))).
Proof.
  intros Hp Hne Hmsg.
  assert (cwd (self (snd (_listen_stdout_iteration data w)))
          = default (cwd (self w)) (msg !! "cwd")) as Hdir.
  { listen_cases data w; simplify_eq/=; try done.
    all: by rewrite Hcwd. }
  unfold get_cwd, gets. simpl. rewrite Hdir.
  split; [intros dir' Hsome | intros Hnone].
  - by rewrite Hsome.
  - by rewrite Hnone.
Qed.

Lemma listen_stdout_cwd_witness :
  cwd (self (snd (@_listen_stdout_iteration sample_platform "output" started_world)))
  = "/tmp/x"
  ∧ cwd (self (snd (@_listen_stdout_iteration sample_platform "result" started_world)))
    = cwd (self started_world).
Proof.
  split.
  - edestruct (@listen_stdout_cwd sample_platform started_world "output"
                 (<["cwd" := "/tmp/x"]> (Output "stdout" "hi"))) as [Hsome _].
    + vm_compute. reflexivity.
    + discriminate.
    + reflexivity.
    + apply (Hsome "/tmp/x"). vm_compute. reflexivity.
  - edestruct (@listen_stdout_cwd sample_platform started_world "result"
                 ToplevelResult) as [_ Hnone].
    + vm_compute. reflexivity.
    + discriminate.
    + reflexivity.
    + apply Hnone. reflexivity.
Defined.

(** ** Restarting the backend *)

Lemma no_restart_command_spec (cmd : Command) :
  no_restart_command cmd → restarts_backend cmd = false.
Proof.
  intros Hno. destruct cmd as [c f a p| | |]; try done.
  specialize (Hno c f a p eq_refl). rewrite !not_elem_of_cons in Hno.
  destruct Hno as (? & ? & ? & _). simpl.
  by rewrite !bool_decide_eq_false_2.
Qed.

Lemma restart_command_spec (c : string) f a p :
  c ∈ ["Run"; "Debug"; "Reset"] → restarts_backend (ToplevelCommand c f a p) = true.
Proof.
  rewrite !elem_of_cons, elem_of_nil. by intros [->|[->|[->|[]]]].
Qed.

Lemma send_command_restart `{Platform} (w : World) c f a p :
  c ∈ ["Run"; "Debug"; "Reset"] →
  popen_launches (cmd_line_of (thonny_dir (self w)) (ToplevelCommand c f a p))
    (cwd (self w)) my_env = true →
  ∃ new,
    fst (send_command (ToplevelCommand c f a p) w) = Ok tt
    ∧ _proc (self (snd (send_command (ToplevelCommand c f a p) w))) = Some new
    ∧ _message_queue (self (snd (send_command (ToplevelCommand c f a p) w))) = Some []
    ∧ pid new = next_pid w
    ∧ returncode new = None
    ∧ popen_args new = cmd_line_of (thonny_dir (self w)) (ToplevelCommand c f a p)
    ∧ popen_env new = my_env
    ∧ popen_cwd new = cwd (self w)
    ∧ ∃ before after,
        trace (snd (send_command (ToplevelCommand c f a p) w))
        = (trace w ++ before
           ++ match _proc (self w) with
              | Some old => if poll old is None then [ProcKill (pid old)] else []
              | None => []
              end
           ++ [LogStarting (popen_args new) (cwd (self w)); ProcSpawn new;
               StdinWrite (pid new)
                 (serialize_message (ToplevelCommand c f a p) ++ newline);
               StdinFlush (pid new)]
           ++ after)%list
        ∧ Forall (λ e, is_process_event e = false ∧ is_stdin_event e = false)
            (before ++ after).
Proof.
  intros Hc Hl.
  rewrite !elem_of_cons, elem_of_nil in Hc.
  destruct Hc as [->|[->|[->|[]]]].
  all: match goal with |- context [send_command ?cmd _] => send_cases cmd w end.
  all: try (vm_compute in Hcc; discriminate Hcc).
  all: try discriminate.
  all: try (rewrite Hl in Hlaunch; discriminate Hlaunch).
  all: eexists; repeat (split; [reflexivity|]).
  all: rewrite <- ?app_assoc; simpl.
  all: first [ eexists [_], [_]; split; [simpl; reflexivity|]
             | eexists [_; _], [_]; split; [simpl; reflexivity|] ].
  all: repeat constructor.
Qed.

Lemma send_command_no_restart `{Platform} (w : World) (cmd : Command) :
  restarts_backend cmd = false →
  _proc (self (snd (send_command cmd w))) = _proc (self w)
  ∧ _message_queue (self (snd (send_command cmd w))) = _message_queue (self w)
  ∧ next_pid (snd (send_command cmd w)) = next_pid w
  ∧ ∃ evs, trace (snd (send_command cmd w)) = (trace w ++ evs)%list
           ∧ Forall (λ e, is_process_event e = false) evs.
Proof.
  intros Hno. send_cases cmd w; try discriminate.
  all: repeat (split; [reflexivity|]).
  all: trace_suffix; repeat constructor.
Qed.

(** C5. A [ToplevelCommand] named [Run], [Debug] or [Reset] makes
    [send_command], when the system launches the new backend, kill the
    current backend if it runs, then start a new one, then write the line of
    the command to the new one, in this order. The inbox is then a fresh,
    empty one; the command line of the new backend is the one of the backend
    followed by the file name of the command and, after it, its arguments,
    when present; its environment sets the encoding to UTF-8 and unbuffered
    input and output and is the inherited one elsewhere; its working
    directory is the directory the proxy tracks. Any other command kills and
    starts nothing and leaves the process handle and the inbox alone. *)
Theorem send_command_restarts_backend `{Platform} (w : World) :
  (∀ c f a p,
     c ∈ ["Run"; "Debug"; "Reset"] →
     popen_launches (cmd_line_of (thonny_dir (self w)) (ToplevelCommand c f a p))
       (cwd (self w)) my_env = true →
     ∃ new,
       fst (send_command (ToplevelCommand c f a p) w) = Ok tt
       ∧ _proc (self (snd (send_command (ToplevelCommand c f a p) w))) = Some new
       ∧ _message_queue (self (snd (send_command (ToplevelCommand c f a p) w)))
         = Some []
       ∧ pid new = next_pid w
       ∧ returncode new = None
       ∧ popen_args new
         = (backend_cmd_line (thonny_dir (self w))
            ++ match f with
               | Some filename => filename :: default [] a
               | None => []
               end)%list
       ∧ popen_env new !! "PYTHONIOENCODING" = Some "UTF-8"
       ∧ popen_env new !! "PYTHONUNBUFFERED" = Some "1"
       ∧ (∀ k, k ≠ "PYTHONIOENCODING" → k ≠ "PYTHONUNBUFFERED" →
            popen_env new !! k = os_environ !! k)
       ∧ popen_cwd new = cwd (self w)
       ∧ ∃ before after,
           trace (snd (send_command (ToplevelCommand c f a p) w))
           = (trace w ++ before
              ++ match _proc (self w) with
                 | Some old => if poll old is None then [ProcKill (pid old)] else []
                 | None => []
                 end
              ++ [LogStarting (popen_args new) (cwd (self w)); ProcSpawn new;
                  StdinWrite (pid new)
                    (serialize_message (ToplevelCommand c f a p) ++ newline);
                  StdinFlush (pid new)]
              ++ after)%list
           ∧ Forall (λ e, is_process_event e = false ∧ is_stdin_event e = false)
               (before ++ after))
  ∧ (∀ cmd,
       no_restart_command cmd →
       _proc (self (snd (send_command cmd w))) = _proc (self w)
       ∧ _message_queue (self (snd (send_command cmd w))) = _message_queue (self w)
       ∧ ∃ evs, trace (snd (send_command cmd w)) = (trace w ++ evs)%list
                ∧ Forall (λ e, is_process_event e = false) evs).
Proof.
  split.
  - intros c f a p Hc Hl.
    destruct (send_command_restart w c f a p Hc Hl)
      as (new & Hok & Hproc & Hq & Hpid & Hrc & Hargs & Henv & Hcwd & Htrace).
    exists new. repeat (split; [done|]).
    split; [|split; [|split; [|split; [|done]]]].
    + rewrite Hargs. unfold cmd_line_of. simpl. destruct f as [filename|]; simpl.
      * by destruct a.
      * by rewrite app_nil_r.
    + rewrite Henv. unfold my_env. by rewrite lookup_insert_ne, lookup_insert_eq.
    + rewrite Henv. unfold my_env. by rewrite lookup_insert_eq.
    + intros k Hk1 Hk2. rewrite Henv. unfold my_env.
      by rewrite !lookup_insert_ne.
  - intros cmd Hno.
    destruct (send_command_no_restart w cmd (no_restart_command_spec cmd Hno))
      as (Hproc & Hq & _ & Htrace).
    done.
Qed.

Lemma send_command_restarts_backend_witness :
  (∃ new,
     _proc (self (snd (@send_command sample_platform run_command started_world)))
     = Some new
     ∧ pid new = 1
     ∧ popen_args new
       = ["/usr/bin/python3"; "-u"; "/opt/thonny/thonny_backend.py"; "a.py"; "1"; "2"]
     ∧ popen_cwd new = "/home/user")
  ∧ _proc (self (snd (@send_command sample_platform
                        (ToplevelCommand "cd" None None (Some "/tmp")) started_world)))
    = _proc (self started_world).
Proof.
  split.
  - destruct (proj1 (@send_command_restarts_backend sample_platform started_world)
                "Run" (Some "a.py") (Some ["1"; "2"]) None)
      as (new & _ & Hproc & _ & Hpid & _ & Hargs & _ & _ & _ & Hcwd & _).
    + elem_of_list.
    + reflexivity.
    + exists new. split; [exact Hproc|]. split; [exact Hpid|].
      split; [exact Hargs | exact Hcwd].
  - apply (proj2 (@send_command_restarts_backend sample_platform started_world)
             (ToplevelCommand "cd" None None (Some "/tmp"))).
    intros c f a p [= <- <- <- <-]. rewrite !not_elem_of_cons.
    repeat split; try discriminate. apply not_elem_of_nil.
Defined.

(** ** Killing the backend *)

(** C8. [_kill_current_process] changes nothing and raises nothing when
    there is no process or when the process has ended already. When the
    process runs, it is killed, the process handle and the inbox are
    dropped, the messages left in the inbox are never fetched, and nothing
    else changes. Killing twice is the same as killing once. *)
Theorem kill_current_process_effect (w : World) :
  (_proc (self w) = None → _kill_current_process w = (Ok tt, w))
  ∧ (∀ p code,
       _proc (self w) = Some p → poll p = Some code →
       _kill_current_process w = (Ok tt, w))
  ∧ (∀ p,
       _proc (self w) = Some p → poll p = None →
       fst (_kill_current_process w) = Ok tt
       ∧ trace (snd (_kill_current_process w)) = (trace w ++ [ProcKill (pid p)])%list
       ∧ _proc (self (snd (_kill_current_process w))) = None
       ∧ _message_queue (self (snd (_kill_current_process w))) = None
       ∧ _state (self (snd (_kill_current_process w))) = _state (self w)
       ∧ cwd (self (snd (_kill_current_process w))) = cwd (self w)
       ∧ fetch_next_message (snd (_kill_current_process w))
         = (Ok None, snd (_kill_current_process w)))
  ∧ _kill_current_process (snd (_kill_current_process w))
    = (Ok tt, snd (_kill_current_process w)).
Proof.
  destruct w as [[dir tdir proc st q] tr np].
  unfold _kill_current_process, fetch_next_message; unfold_proxy.
  split; [by intros ->|].
  split; [intros p code -> Hcode; by rewrite Hcode|].
  split; [intros p -> Hrun; rewrite Hrun; by repeat split|].
  destruct proc as [p|]; [|done]. by destruct (returncode p) eqn:Hrc; simpl; rewrite ?Hrc.
Qed.

Lemma kill_current_process_effect_witness :
  _kill_current_process sample_world = (Ok tt, sample_world)
  ∧ _kill_current_process exited_world = (Ok tt, exited_world)
  ∧ _proc (self (snd (_kill_current_process started_world))) = None
  ∧ _message_queue (self (snd (_kill_current_process started_world))) = None.
Proof.
  split; [|split].
  - apply (proj1 (kill_current_process_effect sample_world)). reflexivity.
  - eapply (proj1 (proj2 (kill_current_process_effect exited_world))).
    + vm_compute. reflexivity.
    + reflexivity.
  - edestruct (proj1 (proj2 (proj2 (kill_current_process_effect started_world))))
      as (_ & _ & Hproc & Hq & _).
    + vm_compute. reflexivity.
    + reflexivity.
    + split; [exact Hproc | exact Hq].
Defined.

(** ** Sending without a backend *)

(** C10. When the proxy holds no process, [send_command] with a command
    that does not restart the backend (an [InlineCommand], an
    [InputSubmission], a [DebuggerCommand], a [ToplevelCommand] such as
    [cd]) reaches the write with no process handle and raises the attribute
    error of the missing handle: nothing is written, nothing is started and
    the handle stays empty. A [ToplevelCommand] named [Run], [Debug] or
    [Reset] starts a backend first: the call returns when the system
    launches it, and raises the error of the launch otherwise. *)
Theorem send_command_without_backend `{Platform} (w : World) (cmd : Command) :
  _proc (self w) = None →
  (no_restart_command cmd →
   fst (send_command cmd w) = Raise (AttributeError "stdin")
   ∧ _proc (self (snd (send_command cmd w))) = None
   ∧ ∃ evs, trace (snd (send_command cmd w)) = (trace w ++ evs)%list
            ∧ Forall (λ e, is_stdin_event e = false ∧ is_process_event e = false) evs)
  ∧ (∀ c f a p,
       cmd = ToplevelCommand c f a p → c ∈ ["Run"; "Debug"; "Reset"] →
       (popen_launches (cmd_line_of (thonny_dir (self w)) cmd) (cwd (self w)) my_env
        = true →
        fst (send_command cmd w) = Ok tt)
       ∧ (popen_launches (cmd_line_of (thonny_dir (self w)) cmd) (cwd (self w)) my_env
          = false →
          fst (send_command cmd w) = Raise OSError)).
Proof.
  intros Hnone. split.
  - intros Hno%no_restart_command_spec.
    send_cases cmd w; try discriminate.
    all: repeat (split; [reflexivity|]).
    all: trace_suffix; repeat constructor.
  - intros c f a p -> Hc. pose proof (restart_command_spec c f a p Hc) as Hrestart.
    split; intros Hl.
    + match goal with |- context [send_command ?c0 _] => send_cases c0 w end;
        try discriminate; try done.
      all: rewrite Hl in Hlaunch; discriminate Hlaunch.
    + match goal with |- context [send_command ?c0 _] => send_cases c0 w end;
        try discriminate; try done.
      all: rewrite Hl in Hlaunch; discriminate Hlaunch.
Qed.

Lemma send_command_without_backend_witness :
  fst (@send_command sample_platform (InlineCommand "tkupdate" ∅) sample_world)
  = Raise (AttributeError "stdin")
  ∧ fst (@send_command sample_platform (InputSubmission "42") sample_world)
    = Raise (AttributeError "stdin")
  ∧ fst (@send_command sample_platform (DebuggerCommand ∅) sample_world)
    = Raise (AttributeError "stdin")
  ∧ fst (@send_command sample_platform
           (ToplevelCommand "cd" None None (Some "/tmp")) sample_world)
    = Raise (AttributeError "stdin")
  ∧ fst (@send_command sample_platform run_command sample_world) = Ok tt.
Proof.
  split; [|split; [|split; [|split]]].
  - apply (@send_command_without_backend sample_platform sample_world
             (InlineCommand "tkupdate" ∅) eq_refl). by intros c f a p.
  - apply (@send_command_without_backend sample_platform sample_world
             (InputSubmission "42") eq_refl). by intros c f a p.
  - apply (@send_command_without_backend sample_platform sample_world
             (DebuggerCommand ∅) eq_refl). by intros c f a p.
  - apply (@send_command_without_backend sample_platform sample_world
             (ToplevelCommand "cd" None None (Some "/tmp")) eq_refl).
    intros c f a p [= <- <- <- <-]. rewrite !not_elem_of_cons.
    repeat split; try discriminate. apply not_elem_of_nil.
  - eapply (proj2 (@send_command_without_backend sample_platform sample_world
                     run_command eq_refl)).
    + reflexivity.
    + elem_of_list.
    + reflexivity.
Defined.

(** ** The values of the state *)

(** What one action can make of the state. *)
Lemma perform_state `{Platform} (a : Action) (w : World) :
  _state (self (perform a w))
  ∈ [_state (self w); Some "running"; Some "waiting_input";
     Some "waiting_debug_command"; Some "waiting_toplevel_command"].
Proof.
  destruct a as [cmd|data| | |data|data|code]; simpl.
  - rewrite send_command_state. destruct (forces_running cmd); elem_of_list.
  - unfold send_program_input. rewrite send_command_state. simpl. elem_of_list.
  - unfold fetch_next_message.
    destruct (_message_queue (self w)) as [[|msg rest]|]; try elem_of_list.
    destruct (getitem msg "message_type") as [mt|e]; [|simpl; elem_of_list].
    destruct (decide (mt = "Output")); [|simpl; elem_of_list].
    destruct (combine_output msg rest) as [r rest']. simpl. elem_of_list.
  - elem_of_list.
  - listen_cases data w; elem_of_list.
  - listen_cases data w; elem_of_list.
  - unfold backend_exits. destruct (_proc (self w)) as [p|]; [|elem_of_list].
    destruct (returncode p); elem_of_list.
Qed.

Lemma run_state `{Platform} (history : list Action) (w : World) :
  _state (self w) ∈ state_values → _state (self (run history w)) ∈ state_values.
Proof.
  revert w. induction history as [|a history IH]; intros w Hw; [done|].
  simpl. apply IH. pose proof (perform_state a w) as Ha.
  rewrite elem_of_cons in Ha. destruct Ha as [->|Ha]; [done|].
  unfold state_values. by apply list_elem_of_further.
Qed.

(** C6, as the code has it. A new proxy has no state: [get_state] returns
    [None]. After any history of calls, listener rounds and process ends,
    [get_state] returns [None] or one of the four names [running],
    [waiting_input], [waiting_debug_command] and [waiting_toplevel_command],
    and never a name [not_started]. *)
Theorem get_state_values `{Platform} (default_cwd main_dir : string)
    (history : list Action) :
  get_state (new_world default_cwd main_dir)
  = (Ok None, new_world default_cwd main_dir)
  ∧ ∃ state,
      get_state (run history (new_world default_cwd main_dir))
      = (Ok state, run history (new_world default_cwd main_dir))
      ∧ state ∈ state_values
      ∧ state ≠ Some "not_started".
Proof.
  split; [done|].
  exists (_state (self (run history (new_world default_cwd main_dir)))).
  split; [done|].
  assert (_state (self (run history (new_world default_cwd main_dir))) ∈ state_values)
    as Hin by (apply run_state; elem_of_list).
  split; [done|].
  intros Heq. rewrite Heq in Hin. unfold state_values in Hin.
  rewrite !elem_of_cons, elem_of_nil in Hin.
  by destruct Hin as [?|[?|[?|[?|[?|[]]]]]].
Qed.

(** C6, counterexample. The state of a new proxy is [None]: it is not a
    value named [not_started], and not one of five names. *)
Lemma get_state_initially_None :
  fst (get_state sample_world) = Ok None
  ∧ fst (get_state sample_world) ≠ Ok (Some "not_started")
  ∧ None ∉ [Some "not_started"; Some "running"; Some "waiting_input";
            Some "waiting_debug_command"; Some "waiting_toplevel_command"].
Proof.
  split; [reflexivity|]. split; [discriminate|].
  rewrite !not_elem_of_cons. repeat split; try discriminate. apply not_elem_of_nil.
Qed.

(** ** Fetching from an empty or absent inbox *)

Lemma combine_output_result (rest : list Message) :
  ∀ (msg : Message), Some <$> (combine_output msg rest).1 ≠ Ok None.
Proof.
  induction rest as [|next_msg rest IH]; intros msg; simpl; [done|].
  destruct (same_output_stream msg next_msg) as [[|]|]; try done.
  destruct (iadd_data msg next_msg); [apply IH | done].
Qed.

(** C9, as the code has it. [fetch_next_message] returns nothing exactly
    when there is no inbox or the inbox is empty, and then changes nothing.
    That is so for a new proxy and after a running backend was killed. The
    end of the backend process by itself leaves the inbox as it is. *)
Theorem fetch_next_message_empty `{Platform} (w : World) :
  (fst (fetch_next_message w) = Ok None
   ↔ _message_queue (self w) = None ∨ _message_queue (self w) = Some [])
  ∧ (_message_queue (self w) = None ∨ _message_queue (self w) = Some [] →
     fetch_next_message w = (Ok None, w))
  ∧ (∀ default_cwd main_dir,
       fetch_next_message (new_world default_cwd main_dir)
       = (Ok None, new_world default_cwd main_dir))
  ∧ (∀ p, _proc (self w) = Some p → poll p = None →
       fetch_next_message (snd (_kill_current_process w))
       = (Ok None, snd (_kill_current_process w)))
  ∧ (∀ code, _message_queue (self (backend_exits code w)) = _message_queue (self w)).
Proof.
  assert (_message_queue (self w) = None ∨ _message_queue (self w) = Some [] →
          fetch_next_message w = (Ok None, w)) as Hempty.
  { unfold fetch_next_message. by intros [->| ->]. }
  split; [|split; [done|split; [done|split]]].
  - split; [|by intros ->%Hempty].
    unfold fetch_next_message.
    destruct (_message_queue (self w)) as [[|msg rest]|]; [by right | | by left].
    destruct (getitem msg "message_type") as [mt|e]; [|done].
    destruct (decide (mt = "Output")); [|done].
    pose proof (combine_output_result rest msg) as Hne.
    destruct (combine_output msg rest) as [r rest']. simpl in *. done.
  - intros p Hp Hrun. unfold _kill_current_process. by rewrite Hp, Hrun.
  - intros code. unfold backend_exits.
    destruct (_proc (self w)) as [p|]; [|done]. by destruct (returncode p).
Qed.

Lemma fetch_next_message_empty_witness :
  fetch_next_message sample_world = (Ok None, sample_world)
  ∧ fetch_next_message (snd (_kill_current_process started_world))
    = (Ok None, snd (_kill_current_process started_world)).
Proof.
  split.
  - apply (proj1 (proj2 (@fetch_next_message_empty sample_platform sample_world))).
    left. reflexivity.
  - eapply (proj1 (proj2 (proj2 (proj2
              (@fetch_next_message_empty sample_platform started_world))))).
    + vm_compute. reflexivity.
    + reflexivity.
Defined.

(** C9, counterexample. The backend has ended by itself, and
    [fetch_next_message] still returns the message that waits in the
    inbox. *)
Lemma fetch_after_backend_exit :
  (∃ p, _proc (self exited_world) = Some p ∧ poll p = Some 0%Z)
  ∧ fetch_next_message exited_world
    = (Ok (Some ToplevelResult), set_message_queue (Some []) exited_world)
  ∧ fst (fetch_next_message exited_world) ≠ Ok None.
Proof.
  split; [|split].
  - eexists. split; [vm_compute; reflexivity | reflexivity].
  - vm_compute. reflexivity.
  - assert (fst (fetch_next_message exited_world) = Ok (Some ToplevelResult)) as ->
      by (vm_compute; reflexivity).
    discriminate.
Qed.

(** ** Conservation of the messages in the inbox *)

Lemma on_stream_insert_data (s d : string) (m : Message) :
  on_stream s (<["data" := d]> m) = on_stream s m.
Proof. unfold on_stream, is_output. by rewrite !lookup_insert_ne. Qed.

Lemma on_stream_spec (s : string) (m : Message) :
  on_stream s m = true
  ↔ m !! "message_type" = Some "Output" ∧ m !! "stream_name" = Some s.
Proof.
  unfold on_stream, is_output.
  rewrite andb_true_iff, !bool_decide_eq_true. done.
Qed.

Lemma on_stream_other (s : string) (m : Message) mt :
  m !! "message_type" = Some mt → mt ≠ "Output" → on_stream s m = false.
Proof.
  intros Hmt Hne. apply not_true_is_false. rewrite on_stream_spec.
  intros [Hout _]. congruence.
Qed.

Lemma stream_text_head (s : string) (m : Message) (msgs : list Message) :
  stream_text s (m :: msgs)
  = (if on_stream s m then default "" (m !! "data") else "") ++ stream_text s msgs.
Proof. simpl. by destruct (on_stream s m). Qed.

(** What the loop of [fetch_next_message] makes of a head that is output and
    of a well-formed rest. *)
Lemma combine_output_well_formed (rest : list Message) :
  ∀ (msg : Message) (sn d : string),
    msg !! "message_type" = Some "Output" →
    msg !! "stream_name" = Some sn →
    msg !! "data" = Some d →
    Forall well_formed rest →
    ∃ d' rest',
      combine_output msg rest = (Ok (<["data" := d']> msg), rest')
      ∧ rest' `suffix_of` rest
      ∧ Forall well_formed rest'
      ∧ (∀ s, stream_text s (<["data" := d']> msg :: rest') = stream_text s (msg :: rest))
      ∧ other_messages rest' = other_messages rest
      ∧ match rest' with
        | [] => True
        | next_msg :: _ => on_stream sn next_msg = false
        end.
Proof.
  induction rest as [|next_msg rest IH]; intros msg sn d Hmt Hsn Hd Hwf.
  - exists d, []. rewrite insert_id by done. by repeat split.
  - apply Forall_cons in Hwf as [(mt & Hnt & Hout) Hwf].
    assert (stop : on_stream sn next_msg = false →
                   same_output_stream msg next_msg = Ok false →
                   ∃ d' rest',
                     combine_output msg (next_msg :: rest) = (Ok (<["data" := d']> msg), rest')
                     ∧ rest' `suffix_of` next_msg :: rest
                     ∧ Forall well_formed rest'
                     ∧ (∀ s, stream_text s (<["data" := d']> msg :: rest')
                             = stream_text s (msg :: next_msg :: rest))
                     ∧ other_messages rest' = other_messages (next_msg :: rest)
                     ∧ match rest' with
                       | [] => True
                       | h :: _ => on_stream sn h = false
                       end).
    { intros Hoff Hsame. exists d, (next_msg :: rest). cbn [combine_output]. rewrite Hsame.
      rewrite insert_id by done. repeat split; try done.
      apply Forall_cons. split; [by exists mt | done]. }
    destruct (decide (mt = "Output")) as [->|Hother].
    + destruct (Hout eq_refl) as [[sn' Hsn'] [dn Hdn]].
      destruct (decide (sn' = sn)) as [->|Hdiff].
      * assert (same_output_stream msg next_msg = Ok true) as Hsame.
        { apply (same_output_stream_true _ _ sn); [done | by repeat split]. }
        destruct (IH (<["data" := d ++ dn]> msg) sn (d ++ dn))
          as (d' & rest' & Hrun & Hsuf & Hwf' & Htext & Hothers & Hhead).
        { by rewrite lookup_insert_ne. }
        { by rewrite lookup_insert_ne. }
        { by rewrite lookup_insert_eq. }
        { done. }
        rewrite insert_insert_eq in Hrun, Htext.
        exists d', rest'. cbn [combine_output]. rewrite Hsame. unfold iadd_data, getitem.
        rewrite Hd, Hdn. cbn [mbind Result_bind mret Result_ret]. rewrite Hrun.
        split; [done|]. split; [by apply suffix_cons_r|]. split; [done|].
        split; [|split; [|done]].
        -- intros s. rewrite Htext. rewrite !stream_text_head.
           rewrite on_stream_insert_data, lookup_insert_eq. simpl.
           destruct (on_stream s msg) eqn:Hon.
           ++ apply on_stream_spec in Hon as [_ Hs].
              assert (s = sn) as -> by congruence.
              assert (on_stream sn next_msg = true) as ->
                  by (by apply on_stream_spec).
              rewrite Hd, Hdn. simpl. by rewrite str_app_assoc.
           ++ assert (on_stream s next_msg = false) as ->; [|done].
              apply not_true_is_false. intros [_ Hs]%on_stream_spec.
              apply not_true_iff_false in Hon. apply Hon.
              apply on_stream_spec. split; [done|congruence].
        -- rewrite Hothers. simpl. unfold is_output. by rewrite Hnt, bool_decide_eq_true_2.
      * apply stop.
        -- apply not_true_is_false. intros [_ Hs]%on_stream_spec. congruence.
        -- apply (same_output_stream_false _ _ sn); [done|].
           exists "Output". split; [done|]. right. by exists sn'.
    + apply stop.
      * by apply (on_stream_other _ _ mt).
      * apply (same_output_stream_false _ _ sn); [done|].
        exists mt. split; [done|]. by left.
Qed.

Lemma fetch_well_formed (w : World) (msg : Message) (rest : list Message) :
  _message_queue (self w) = Some (msg :: rest) →
  Forall well_formed (msg :: rest) →
  ∃ r rest',
    fetch_next_message w = (Ok (Some r), set_message_queue (Some rest') w)
    ∧ rest' `suffix_of` rest
    ∧ Forall well_formed (r :: rest')
    ∧ (∀ s, stream_text s (r :: rest') = stream_text s (msg :: rest))
    ∧ other_messages (r :: rest') = other_messages (msg :: rest)
    ∧ (∀ k, k ≠ "data" → r !! k = msg !! k)
    ∧ (∀ s next_msg rest'', on_stream s r = true → rest' = next_msg :: rest'' →
         on_stream s next_msg = false).
Proof.
  intros Hq Hwf. pose proof Hwf as Hall.
  apply Forall_cons in Hwf as [(mt & Hmt & Hout) Hwf].
  unfold fetch_next_message. rewrite Hq. unfold getitem. rewrite Hmt.
  destruct (decide (mt = "Output")) as [->|Hother].
  - destruct (Hout eq_refl) as [[sn Hsn] [d Hd]].
    destruct (combine_output_well_formed rest msg sn d Hmt Hsn Hd Hwf)
      as (d' & rest' & Hrun & Hsuf & Hwf' & Htext & Hothers & Hhead).
    rewrite Hrun. exists (<["data" := d']> msg), rest'.
    split; [done|]. split; [done|]. split; [|split; [done|split; [|split]]].
    + apply Forall_cons. split; [|done]. exists "Output".
      split; [by rewrite lookup_insert_ne|]. intros _.
      split; [by rewrite lookup_insert_ne | by rewrite lookup_insert_eq].
    + simpl. unfold is_output. rewrite lookup_insert_ne by done.
      rewrite Hmt, bool_decide_eq_true_2 by done. exact Hothers.
    + intros k Hk. by rewrite lookup_insert_ne.
    + intros s next_msg rest'' Hon ->. rewrite on_stream_insert_data in Hon.
      apply on_stream_spec in Hon as [_ Hs]. by assert (s = sn) as -> by congruence.
  - exists msg, rest. repeat split; try done.
    intros s next_msg rest'' Hon. by rewrite (on_stream_other s msg mt) in Hon.
Qed.

(** X1. On an inbox whose messages are all well formed, [fetch_next_message]
    raises nothing and returns a message; what stays in the inbox is the end
    of what was there and is well formed; on every stream the text of the
    returned message and of the rest together is the text that was in the
    inbox; the messages that are not output are the same, in the same order;
    the returned message has the fields of the head, its data apart; and the
    message now at the head is not output on the stream of the returned
    one. *)
Theorem fetch_next_message_conserves (w : World) (msg : Message) (rest : list Message) :
  _message_queue (self w) = Some (msg :: rest) →
  Forall well_formed (msg :: rest) →
  ∃ r rest',
    fetch_next_message w = (Ok (Some r), set_message_queue (Some rest') w)
    ∧ rest' `suffix_of` rest
    ∧ Forall well_formed (r :: rest')
    ∧ (∀ s, stream_text s (r :: rest') = stream_text s (msg :: rest))
    ∧ other_messages (r :: rest') = other_messages (msg :: rest)
    ∧ (∀ k, k ≠ "data" → r !! k = msg !! k)
    ∧ (∀ s next_msg rest'', on_stream s r = true → rest' = next_msg :: rest'' →
         on_stream s next_msg = false).
Proof. apply fetch_well_formed. Qed.

Lemma well_formed_Output (sn d : string) : well_formed (Output sn d).
Proof. exists "Output". split; [reflexivity|]. intros _. split; eexists; reflexivity. Qed.

Lemma well_formed_ToplevelResult : well_formed ToplevelResult.
Proof. exists "ToplevelResult". split; [reflexivity | discriminate]. Qed.

Lemma fetch_next_message_conserves_witness :
  ∃ r rest',
    fetch_next_message
      (world_with_queue
         (Some [Output "stdout" "a"; Output "stdout" "b"; ToplevelResult;
                Output "stdout" "c"]))
    = (Ok (Some r),
       set_message_queue (Some rest')
         (world_with_queue
            (Some [Output "stdout" "a"; Output "stdout" "b"; ToplevelResult;
                   Output "stdout" "c"])))
    ∧ stream_text "stdout" (r :: rest') = "abc".
Proof.
  destruct (fetch_next_message_conserves
              (world_with_queue
                 (Some [Output "stdout" "a"; Output "stdout" "b"; ToplevelResult;
                        Output "stdout" "c"]))
              (Output "stdout" "a") [Output "stdout" "b"; ToplevelResult;
                                     Output "stdout" "c"])
    as (r & rest' & Hfetch & _ & _ & Htext & _).
  - reflexivity.
  - repeat apply Forall_cons_2;
      [ apply well_formed_Output | apply well_formed_Output
      | apply well_formed_ToplevelResult | apply well_formed_Output
      | apply Forall_nil_2 ].
  - exists r, rest'. split; [exact Hfetch|]. rewrite Htext. vm_compute. reflexivity.
Defined.

(** X2. A message without a type at the head of the inbox makes
    [fetch_next_message] raise the key error of the type, and the message
    has left the inbox. Behind a head that is output, a message without a
    type, or output without a stream, raises too, and then both the head,
    with the output folded into it so far, and that message have left the
    inbox. *)
Theorem fetch_next_message_loses_malformed (w : World) :
  (∀ msg rest,
     _message_queue (self w) = Some (msg :: rest) →
     msg !! "message_type" = None →
     fetch_next_message w
     = (Raise (KeyError "message_type"), set_message_queue (Some rest) w))
  ∧ (∀ msg next_msg rest,
       _message_queue (self w) = Some (msg :: next_msg :: rest) →
       msg !! "message_type" = Some "Output" →
       next_msg !! "message_type" = None →
       fetch_next_message w
       = (Raise (KeyError "message_type"), set_message_queue (Some rest) w))
  ∧ (∀ msg next_msg rest,
       _message_queue (self w) = Some (msg :: next_msg :: rest) →
       msg !! "message_type" = Some "Output" →
       next_msg !! "message_type" = Some "Output" →
       next_msg !! "stream_name" = None →
       fetch_next_message w
       = (Raise (KeyError "stream_name"), set_message_queue (Some rest) w)).
Proof.
  unfold fetch_next_message, getitem. split; [|split].
  - intros msg rest -> Hnone. by rewrite Hnone.
  - intros msg next_msg rest -> Hmt Hnone. rewrite Hmt.
    destruct (decide ("Output" = "Output")); [|done].
    cbn [combine_output]. unfold same_output_stream, getitem. by rewrite Hnone.
  - intros msg next_msg rest -> Hmt Hnext Hnone. rewrite Hmt.
    destruct (decide ("Output" = "Output")); [|done].
    cbn [combine_output]. unfold same_output_stream, getitem. rewrite Hnext.
    cbn [mbind Result_bind]. destruct (decide ("Output" = "Output")); [|done].
    by rewrite Hnone.
Qed.

Lemma fetch_next_message_loses_malformed_witness :
  fetch_next_message (world_with_queue (Some [Output "stdout" "a"; ∅; ToplevelResult]))
  = (Raise (KeyError "message_type"), world_with_queue (Some [ToplevelResult])).
Proof.
  apply (proj1 (proj2 (fetch_next_message_loses_malformed
                         (world_with_queue
                            (Some [Output "stdout" "a"; ∅; ToplevelResult]))))
           (Output "stdout" "a") ∅ [ToplevelResult]).
  - reflexivity.
  - reflexivity.
  - reflexivity.
Defined.

(** ** Polling the inbox *)

Lemma combine_output_length (rest : list Message) :
  ∀ msg : Message, (length (combine_output msg rest).2 ≤ length rest)%nat.
Proof.
  induction rest as [|next_msg rest IH]; intros msg; cbn [combine_output]; [done|].
  destruct (same_output_stream msg next_msg) as [[|]|]; simpl; try lia.
  destruct (iadd_data msg next_msg) as [msg'|]; simpl; [|lia].
  specialize (IH msg'). lia.
Qed.

(** A fetch changes the inbox only, and a fetch that returns a message makes
    the inbox shorter. *)
Lemma fetch_shrinks (w : World) :
  ∃ queue',
    (fetch_next_message w).2 = set_message_queue queue' w
    ∧ (∀ r, (fetch_next_message w).1 = Ok (Some r) →
         ∃ q q', _message_queue (self w) = Some q ∧ queue' = Some q'
                 ∧ (length q' < length q)%nat ∧ r ≠ ∅)
    ∧ ((fetch_next_message w).1 = Ok None → (fetch_next_message w).2 = w).
Proof.
  unfold fetch_next_message.
  destruct (_message_queue (self w)) as [[|msg rest]|] eqn:Hq.
  - exists (Some []). destruct w as [[]]; simpl in *. by subst.
  - unfold getitem. destruct (msg !! "message_type") as [mt|] eqn:Hmt.
    + destruct (decide (mt = "Output")).
      * pose proof (combine_output_length rest msg) as Hlen.
        destruct (combine_output msg rest) as [r rest'] eqn:Hrun. simpl in *.
        exists (Some rest'). split; [done|]. split; [|by destruct r].
        intros r'. destruct r as [r|]; [|done]. intros [= <-].
        exists (msg :: rest), rest'. simpl. repeat split; try done; try lia.
        assert (∀ rest0 (msg0 r0 : Message) q0,
                  combine_output msg0 rest0 = (Ok r0, q0) →
                  is_Some (msg0 !! "message_type") → is_Some (r0 !! "message_type"))
          as Hkeeps.
        { clear. induction rest0 as [|n rest0 IH]; intros msg0 r0 q0; cbn [combine_output].
          - by intros [= <- <-].
          - destruct (same_output_stream msg0 n) as [[|]|]; [|by intros [= <- <-]|done].
            unfold iadd_data, getitem.
            destruct (msg0 !! "data"); [|done]. destruct (n !! "data"); [|done].
            cbn [mbind Result_bind mret Result_ret]. intros Hrec Hsome.
            apply (IH _ _ _ Hrec). by rewrite lookup_insert_ne. }
        destruct (Hkeeps _ _ _ _ Hrun (mk_is_Some _ _ Hmt)) as [x Hx].
        intros ->. by rewrite lookup_empty in Hx.
      * exists (Some rest). split; [done|]. split; [|done].
        intros r [= <-]. exists (msg :: rest), rest. simpl. repeat split; try done; try lia.
        intros ->. by rewrite lookup_empty in Hmt.
    + exists (Some rest). by repeat split.
  - exists None. destruct w as [[]]; simpl in *. by subst.
Qed.

Section Polling.
Context `{Platform} `{ShellSyntax}.

(** One round of the loop of [_poll_vm_messages] after the fetch. *)
Lemma poll_round (msg : Message) (rw : RunnerWorld) :
  (call (LogFetched msg);;
   sequence ← on_proxy (lift (getitem msg "message_type"));
   call (EventGenerate sequence msg);;
   dir ← Runner.get_cwd;
   call (SetOption "run.working_directory" dir);;
   call UpdateIdletasks) rw
  = match msg !! "message_type" with
    | Some mt =>
        (Returns tt,
         {| _proxy := _proxy rw;
            calls := (calls rw ++ [LogFetched msg; EventGenerate mt msg;
                                   SetOption "run.working_directory"
                                     (cwd (self (_proxy rw)));
                                   UpdateIdletasks])%list |})
    | None =>
        (Raises (ProxyException (KeyError "message_type")),
         {| _proxy := _proxy rw; calls := (calls rw ++ [LogFetched msg])%list |})
    end.
Proof.
  destruct rw as [w cs].
  unfold mbind, R_bind, call, on_proxy, lift, Runner.get_cwd, gets, getitem. simpl.
  destruct (msg !! "message_type"); simpl; [|done].
  by rewrite <- !app_assoc.
Qed.

Lemma poll_loop_total (fuel : nat) :
  ∀ rw, (Runner.inbox_size rw < fuel)%nat →
    ∃ out rw' cs,
      Runner.poll_loop fuel rw = Some (out, rw')
      ∧ calls rw' = (calls rw ++ cs)%list
      ∧ Forall (λ c, is_after c = false) cs
      ∧ (∀ e, out = Raises e → ∃ key, e = ProxyException (KeyError key)).
Proof.
  induction fuel as [|fuel IH]; intros rw Hsize; [lia|].
  cbn [Runner.poll_loop]. unfold on_proxy at 1.
  destruct (fetch_shrinks (_proxy rw)) as (queue' & Hworld & Hsome & Hnone).
  destruct (fetch_next_message (_proxy rw)) as [[[r|]|e] w'] eqn:Hfetch; simpl in *.
  - destruct (Hsome r eq_refl) as (q & q' & Hq & -> & Hlen & Hne).
    destruct (decide (r = ∅)) as [|_]; [done|].
    rewrite poll_round. cbn [_proxy calls].
    destruct (r !! "message_type") as [mt|].
    + match goal with
      | |- context [Runner.poll_loop fuel ?rw1] =>
          destruct (IH rw1) as (out & rw' & cs & Hloop & Hcalls & Hafter & Hexn)
      end.
      { unfold Runner.inbox_size in *. cbn [_proxy]. rewrite Hworld. simpl.
        rewrite Hq in Hsize. lia. }
      rewrite Hloop. eexists out, rw', _. split; [done|].
      split; [rewrite Hcalls; cbn [calls]; by rewrite <- app_assoc|].
      split; [|done]. apply Forall_app. split; [|done]. by repeat constructor.
    + eexists _, _, [_]. split; [done|]. split; [done|].
      split; [by repeat constructor|]. intros e' [= <-]. by eexists.
  - exists (Returns tt), {| _proxy := w'; calls := calls rw |}, [].
    split; [done|]. split; [by rewrite app_nil_r|]. split; [done|]. by intros.
  - exists (Raises (ProxyException e)), {| _proxy := w'; calls := calls rw |}, [].
    split; [done|]. split; [by rewrite app_nil_r|]. split; [done|].
    intros e' [= <-].
    assert (∃ key, e = KeyError key) as [key ->]; [|by eexists].
    revert Hfetch. unfold fetch_next_message, getitem.
    destruct (_message_queue (self (_proxy rw))) as [[|msg rest]|]; try done.
    destruct (msg !! "message_type") as [mt|]; [|intros [= <- _]; by eexists].
    destruct (decide (mt = "Output")); [|done].
    assert (∀ rest0 (msg0 : Message) e0 q0,
              combine_output msg0 rest0 = (Raise e0, q0) → ∃ key, e0 = KeyError key)
      as Hkey.
    { clear. induction rest0 as [|n rest0 IH]; intros msg0 e0 q0; cbn [combine_output];
        [done|].
      unfold same_output_stream, iadd_data, getitem.
      destruct (n !! "message_type") as [mt|]; cbn [mbind Result_bind mret Result_ret];
        [|intros [= <- _]; by eexists].
      destruct (decide (mt = "Output")); cbn [mbind Result_bind mret Result_ret]; [|done].
      destruct (n !! "stream_name"); cbn [mbind Result_bind mret Result_ret];
        [|intros [= <- _]; by eexists].
      destruct (msg0 !! "stream_name"); cbn [mbind Result_bind mret Result_ret];
        [|intros [= <- _]; by eexists].
      case_bool_decide; [|done].
      destruct (msg0 !! "data"); cbn [mbind Result_bind mret Result_ret];
        [|intros [= <- _]; by eexists].
      destruct (n !! "data"); cbn [mbind Result_bind mret Result_ret];
        [|intros [= <- _]; by eexists].
      apply IH. }
    destruct (combine_output msg rest) as [[r|e1] q1] eqn:Hrun; [done|].
    intros [= <- _]. by apply (Hkey _ _ _ _ Hrun).
Qed.

End Polling.

(** X4. [_poll_vm_messages] always ends, whatever is in the inbox. It asks
    to be called again, once and as its last call to the workbench, exactly
    when it returns; when a fetch raises, which is always a key error, the
    exception leaves the method and nothing schedules a further poll. *)
Theorem poll_vm_messages_reschedules (rw : RunnerWorld) :
  ∃ out rw' cs,
    Runner._poll_vm_messages rw = Some (out, rw')
    ∧ Forall (λ c, is_after c = false) cs
    ∧ match out with
      | Returns _ => calls rw' = (calls rw ++ cs ++ [After 50 "_poll_vm_messages"])%list
      | Raises e =>
          calls rw' = (calls rw ++ cs)%list ∧ ∃ key, e = ProxyException (KeyError key)
      end.
Proof.
  destruct (poll_loop_total (S (Runner.inbox_size rw)) rw (Nat.lt_succ_diag_r _))
    as (out & rw' & cs & Hloop & Hcalls & Hafter & Hexn).
  unfold Runner._poll_vm_messages. rewrite Hloop. destruct out as [[]|e].
  - eexists (Returns tt), _, cs. split; [done|]. split; [done|].
    unfold call. cbn [calls]. by rewrite Hcalls, <- app_assoc.
  - exists (Raises e), rw', cs. split; [done|]. split; [done|]. split; [done|].
    by apply Hexn.
Qed.

Lemma set_message_queue_twice (q1 q2 : option (list Message)) (w : World) :
  set_message_queue q2 (set_message_queue q1 w) = set_message_queue q2 w.
Proof. done. Qed.

Lemma set_message_queue_same (q : option (list Message)) (w : World) :
  _message_queue (self w) = q → set_message_queue q w = w.
Proof. destruct w as [[]]. simpl. by intros ->. Qed.

Lemma fully_coalesced_cons (m : Message) (msgs : list Message) :
  (∀ s next_msg rest, on_stream s m = true → msgs = next_msg :: rest →
     on_stream s next_msg = false) →
  fully_coalesced msgs → fully_coalesced (m :: msgs).
Proof.
  intros Hhead Hrest. destruct msgs as [|m2 msgs]; [done|].
  split; [|done]. intros s Hon. by apply (Hhead s m2 msgs).
Qed.

(** The loop of [_poll_vm_messages] on a well-formed inbox. *)
Lemma poll_loop_drains (fuel : nat) :
  ∀ (rw : RunnerWorld) (queue : list Message),
    _message_queue (self (_proxy rw)) = Some queue →
    Forall well_formed queue →
    (length queue < fuel)%nat →
    ∃ cs,
      Runner.poll_loop fuel rw
      = Some (Returns tt,
              {| _proxy := set_message_queue (Some []) (_proxy rw);
                 calls := (calls rw ++ cs)%list |})
      ∧ (∀ s, stream_text s (generated cs) = stream_text s queue)
      ∧ other_messages (generated cs) = other_messages queue
      ∧ Forall well_formed (generated cs)
      ∧ fully_coalesced (generated cs)
      ∧ (length (generated cs) ≤ length queue)%nat
      ∧ match generated cs, queue with
        | [], [] => True
        | g :: _, msg :: _ => ∀ s, on_stream s g = on_stream s msg
        | _, _ => False
        end
      ∧ Forall (λ c, is_after c = false) cs.
Proof.
  induction fuel as [|fuel IH]; intros rw queue Hq Hwf Hfuel; [lia|].
  cbn [Runner.poll_loop]. unfold on_proxy at 1.
  destruct queue as [|msg rest].
  - unfold fetch_next_message. rewrite Hq. exists [].
    rewrite app_nil_r, (set_message_queue_same _ _ Hq). by destruct rw.
  - destruct (fetch_well_formed _ _ _ Hq Hwf)
      as (r & rest' & Hfetch & Hsuf & Hwf' & Htext & Hothers & Hfields & Hhead).
    rewrite Hfetch. apply Forall_cons in Hwf' as [Hr Hwf'].
    destruct Hr as (mt & Hmt & Hout).
    destruct (decide (r = ∅)) as [->|_]; [by rewrite lookup_empty in Hmt|].
    rewrite poll_round, Hmt. cbn [_proxy calls].
    match goal with
    | |- context [Runner.poll_loop fuel ?rw1] =>
        destruct (IH rw1 rest')
          as (cs & Hloop & Htext' & Hothers' & Hgen & Hco & Hlen & Hfirst & Hafter)
    end.
    { done. }
    { done. }
    { apply suffix_length in Hsuf. simpl in Hfuel. lia. }
    rewrite Hloop. cbn [_proxy calls]. rewrite set_message_queue_twice.
    eexists. split; [by rewrite <- app_assoc|].
    cbn [app generated].
    split; [|split; [|split; [|split; [|split; [|split]]]]].
    + intros s. rewrite <- Htext. rewrite !stream_text_head. by rewrite Htext'.
    + rewrite <- Hothers. simpl. by rewrite Hothers'.
    + apply Forall_cons. split; [by exists mt | done].
    + apply fully_coalesced_cons; [|done].
      intros s g gs Hon Hg. rewrite Hg in Hfirst.
      destruct rest' as [|next_msg rest'']; [done|].
      rewrite Hfirst. by apply (Hhead s next_msg rest'').
    + simpl. apply suffix_length in Hsuf. lia.
    + intros s. unfold on_stream, is_output. by rewrite !Hfields.
    + by repeat (apply Forall_cons_2; [done|]).
Qed.

(** X3. On an inbox whose messages are all well formed, and with no listener
    round in between, [_poll_vm_messages] returns and leaves the inbox empty.
    The messages it hands to [event_generate] carry, on every stream, the
    text that was in the inbox, and the messages that are not output as
    they were and in their order; no two in a row are output on the same
    stream, and they are no more than the inbox had. The poll is scheduled
    again at the end. *)
Theorem poll_vm_messages_drains (rw : RunnerWorld) (queue : list Message) :
  _message_queue (self (_proxy rw)) = Some queue →
  Forall well_formed queue →
  ∃ cs,
    Runner._poll_vm_messages rw
    = Some (Returns tt,
            {| _proxy := set_message_queue (Some []) (_proxy rw);
               calls := (calls rw ++ cs ++ [After 50 "_poll_vm_messages"])%list |})
    ∧ (∀ s, stream_text s (generated cs) = stream_text s queue)
    ∧ other_messages (generated cs) = other_messages queue
    ∧ fully_coalesced (generated cs)
    ∧ (length (generated cs) ≤ length queue)%nat
    ∧ Forall (λ c, is_after c = false) cs.
Proof.
  intros Hq Hwf.
  destruct (poll_loop_drains (S (Runner.inbox_size rw)) rw queue Hq Hwf)
    as (cs & Hloop & Htext & Hothers & _ & Hco & Hlen & _ & Hafter).
  { unfold Runner.inbox_size. rewrite Hq. lia. }
  exists cs. unfold Runner._poll_vm_messages. rewrite Hloop.
  unfold call. cbn [_proxy calls]. by rewrite <- app_assoc.
Qed.

Lemma poll_vm_messages_drains_witness :
  ∃ cs,
    Runner._poll_vm_messages
      (sample_runner
         (world_with_queue
            (Some [Output "stdout" "a"; Output "stdout" "b"; Output "stderr" "e";
                   ToplevelResult])))
    = Some (Returns tt,
            {| _proxy := world_with_queue (Some []);
               calls := (cs ++ [After 50 "_poll_vm_messages"])%list |})
    ∧ stream_text "stdout" (generated cs) = "ab"
    ∧ (length (generated cs) ≤ 4)%nat.
Proof.
  destruct (poll_vm_messages_drains
              (sample_runner
                 (world_with_queue
                    (Some [Output "stdout" "a"; Output "stdout" "b";
                           Output "stderr" "e"; ToplevelResult])))
              [Output "stdout" "a"; Output "stdout" "b"; Output "stderr" "e";
               ToplevelResult])
    as (cs & Hpoll & Htext & _ & _ & Hlen & _).
  - reflexivity.
  - repeat apply Forall_cons_2;
      [ apply well_formed_Output | apply well_formed_Output
      | apply well_formed_Output | apply well_formed_ToplevelResult
      | apply Forall_nil_2 ].
  - exists cs. split; [exact Hpoll|]. split; [|exact Hlen].
    rewrite Htext. vm_compute. reflexivity.
Defined.


(** ** Invariants of the histories *)

Lemma supervise_app (l1 l2 : list Event) :
  ∀ next current,
    supervise next current (l1 ++ l2)
    = match supervise next current l1 with
      | Some (next', current') => supervise next' current' l2
      | None => None
      end.
Proof.
  induction l1 as [|e l1 IH]; intros next current; [done|].
  destruct e; simpl; try apply IH; case_decide; try done; apply IH.
Qed.

Lemma replay_state_app (l1 l2 : list Event) :
  ∀ state, replay_state state (l1 ++ l2) = replay_state (replay_state state l1) l2.
Proof.
  induction l1 as [|e l1 IH]; intros state; [done|].
  destruct e; simpl; apply IH.
Qed.

Lemma restarts_forces_running `{Platform} (cmd : Command) :
  restarts_backend cmd = true → forces_running cmd = true.
Proof. by destruct cmd. Qed.

Lemma send_command_effects `{Platform} (cmd : Command) (w : World) :
  ∃ evs,
    trace (send_command cmd w).2 = (trace w ++ evs)%list
    ∧ supervise (next_pid w) (pid <$> _proc (self w)) evs
      = Some (next_pid (send_command cmd w).2, pid <$> _proc (self (send_command cmd w).2))
    ∧ thonny_dir (self (send_command cmd w).2) = thonny_dir (self w)
    ∧ cwd (self (send_command cmd w).2) = cwd (self w)
    ∧ (coherent w → coherent (send_command cmd w).2).
Proof.
  pose proof (restarts_forces_running cmd) as Hrf.
  send_cases cmd w; try (specialize (Hrf eq_refl); discriminate Hrf).
  all: trace_suffix; simpl.
  all: repeat (case_decide; try done).
  all: repeat split; try done.
  all: coherent_solve.
Qed.

Lemma listen_stdout_effects `{Platform} (data : string) (w : World) :
  ∃ evs,
    trace (_listen_stdout_iteration data w).2 = (trace w ++ evs)%list
    ∧ replay_state (_state (self w)) evs = _state (self (_listen_stdout_iteration data w).2)
    ∧ supervise (next_pid w) (pid <$> _proc (self w)) evs
      = Some (next_pid (_listen_stdout_iteration data w).2,
              pid <$> _proc (self (_listen_stdout_iteration data w).2))
    ∧ thonny_dir (self (_listen_stdout_iteration data w).2) = thonny_dir (self w)
    ∧ (coherent w → coherent (_listen_stdout_iteration data w).2).
Proof.
  listen_cases data w; trace_suffix; simpl.
  all: repeat split; try done.
  all: coherent_solve.
Qed.

Lemma listen_stderr_effects `{Platform} (data : string) (w : World) :
  ∃ evs,
    trace (_listen_stderr_iteration data w).2 = (trace w ++ evs)%list
    ∧ replay_state (_state (self w)) evs = _state (self w)
    ∧ supervise (next_pid w) (pid <$> _proc (self w)) evs
      = Some (next_pid w, pid <$> _proc (self w))
    ∧ next_pid (_listen_stderr_iteration data w).2 = next_pid w
    ∧ self (_listen_stderr_iteration data w).2 = self w.
Proof.
  destruct w as [[dir tdir proc st q] tr np].
  unfold _listen_stderr_iteration. unfold_proxy.
  destruct proc as [pr|]; proxy_cbn; [destruct (decide (data = ""))|];
    proxy_cbn; trace_suffix; done.
Qed.

Lemma fetch_frame (w : World) :
  ∃ queue',
    (fetch_next_message w).2 = set_message_queue queue' w
    ∧ (is_Some (_message_queue (self w)) → is_Some queue').
Proof.
  unfold fetch_next_message.
  destruct (_message_queue (self w)) as [[|msg rest]|] eqn:Hq.
  - exists (Some []). split; [|done]. by rewrite (set_message_queue_same _ _ Hq).
  - unfold getitem. destruct (msg !! "message_type") as [mt|].
    + destruct (decide (mt = "Output")); [|by exists (Some rest)].
      destruct (combine_output msg rest) as [r rest']. by exists (Some rest').
    + by exists (Some rest).
  - exists None. split; [|done]. by rewrite (set_message_queue_same _ _ Hq).
Qed.

(** What one action does to the trace, to the process handle, to the
    directories and to the agreement of handle, inbox and state. *)
Lemma perform_effects `{Platform} (a : Action) (w : World) :
  ∃ evs,
    trace (perform a w) = (trace w ++ evs)%list
    ∧ replay_state (_state (self w)) evs = _state (self (perform a w))
    ∧ supervise (next_pid w) (pid <$> _proc (self w)) evs
      = Some (next_pid (perform a w), pid <$> _proc (self (perform a w)))
    ∧ thonny_dir (self (perform a w)) = thonny_dir (self w)
    ∧ (is_stdout_round a = false → cwd (self (perform a w)) = cwd (self w))
    ∧ (coherent w → coherent (perform a w)).
Proof.
  destruct a as [cmd|data| | |data|data|code]; cbn [perform is_stdout_round].
  - destruct (send_command_trace cmd w) as (evs & Htrace & Hreplay & _).
    destruct (send_command_effects cmd w) as (evs' & Htrace' & Hsup & Htd & Hcwd & Hco).
    rewrite Htrace in Htrace'. apply app_inv_head in Htrace' as <-.
    exists evs. split; [exact Htrace|]. split; [exact Hreplay|]. split; [exact Hsup|].
    split; [exact Htd|]. split; [intros _; exact Hcwd | exact Hco].
  - unfold send_program_input.
    destruct (send_command_trace (InputSubmission data) w) as (evs & Htrace & Hreplay & _).
    destruct (send_command_effects (InputSubmission data) w)
      as (evs' & Htrace' & Hsup & Htd & Hcwd & Hco).
    rewrite Htrace in Htrace'. apply app_inv_head in Htrace' as <-.
    exists evs. split; [exact Htrace|]. split; [exact Hreplay|]. split; [exact Hsup|].
    split; [exact Htd|]. split; [intros _; exact Hcwd | exact Hco].
  - destruct (fetch_frame w) as (queue' & Hworld & Hkeeps). rewrite Hworld.
    exists []. rewrite app_nil_r. do 5 (split; [done|]).
    intros [Hq Hw]. split; simpl; [intros Hp; apply Hkeeps, Hq, Hp | exact Hw].
  - exists []. rewrite app_nil_r. by do 5 (split; [done|]).
  - destruct (listen_stdout_effects data w) as (evs & ? & ? & ? & ? & ?).
    exists evs. by do 5 (split; [done|]).
  - destruct (listen_stderr_effects data w) as (evs & Htrace & Hreplay & Hsup & Hnp & Hself).
    exists evs. rewrite Hself, Hnp. do 5 (split; [done|]).
    unfold coherent. by rewrite Hself.
  - exists []. rewrite app_nil_r. unfold backend_exits.
    destruct (_proc (self w)) as [p|] eqn:Hp; [|by rewrite ?Hp].
    destruct (returncode p); [by rewrite ?Hp|].
    split; [done|]. split; [done|]. split; [done|]. split; [done|].
    split; [done|].
    unfold coherent. simpl. rewrite Hp. intros [Hq Hw].
    split; [intros _; by apply Hq | by intros _].
Qed.

Lemma run_effects `{Platform} (history : list Action) :
  ∀ w, ∃ evs,
    trace (run history w) = (trace w ++ evs)%list
    ∧ replay_state (_state (self w)) evs = _state (self (run history w))
    ∧ supervise (next_pid w) (pid <$> _proc (self w)) evs
      = Some (next_pid (run history w), pid <$> _proc (self (run history w)))
    ∧ thonny_dir (self (run history w)) = thonny_dir (self w)
    ∧ (Forall (λ a, is_stdout_round a = false) history →
       cwd (self (run history w)) = cwd (self w))
    ∧ (coherent w → coherent (run history w)).
Proof.
  induction history as [|a history IH]; intros w.
  - exists []. rewrite app_nil_r. by do 5 (split; [done|]).
  - destruct (perform_effects a w) as (evs1 & Ht1 & Hr1 & Hs1 & Hd1 & Hc1 & Hco1).
    destruct (IH (perform a w)) as (evs2 & Ht2 & Hr2 & Hs2 & Hd2 & Hc2 & Hco2).
    exists (evs1 ++ evs2)%list. change (run (a :: history) w) with (run history (perform a w)).
    split; [by rewrite Ht2, Ht1, app_assoc|].
    split; [by rewrite replay_state_app, Hr1|].
    split; [by rewrite supervise_app, Hs1|].
    split; [by rewrite Hd2|].
    split; [|by intros ?%Hco1%Hco2].
    intros [Ha Hh]%Forall_cons. by rewrite (Hc2 Hh), (Hc1 Ha).
Qed.




(** X6. In the trace of any history of a new proxy, every spawn takes the
    next process id, starting from 0, so no id is used twice; every kill,
    every write and every flush goes to the process that was spawned last
    and not killed since; and that process is the one the handle of the
    proxy holds at the end, the handle being empty when there is none. *)
Theorem trace_supervised `{Platform} (default_cwd main_dir : string)
    (history : list Action) :
  supervise 0 None (trace (run history (new_world default_cwd main_dir)))
  = Some (next_pid (run history (new_world default_cwd main_dir)),
          pid <$> _proc (self (run history (new_world default_cwd main_dir)))).
Proof.
  destruct (run_effects history (new_world default_cwd main_dir))
    as (evs & Htrace & _ & Hsup & _).
  by rewrite Htrace.
Qed.

(** X7. The state changes that [_set_state] logs tell the state: replayed
    from no state along the trace of any history of a new proxy, they lead
    to the state the proxy is in. *)
Theorem state_changes_logged `{Platform} (default_cwd main_dir : string)
    (history : list Action) :
  replay_state None (trace (run history (new_world default_cwd main_dir)))
  = _state (self (run history (new_world default_cwd main_dir))).
Proof.
  destruct (run_effects history (new_world default_cwd main_dir))
    as (evs & Htrace & Hreplay & _).
  by rewrite Htrace.
Qed.

(** X8. Only a round of the output listener changes the directory the proxy
    tracks: a history without such a round, whatever commands it sends (a
    [cd] command too), leaves [cwd] as it was; and no history changes
    [thonny_dir]. *)
Theorem cwd_changes_only_by_stdout `{Platform} (history : list Action) (w : World) :
  thonny_dir (self (run history w)) = thonny_dir (self w)
  ∧ (Forall (λ a, is_stdout_round a = false) history →
     cwd (self (run history w)) = cwd (self w)).
Proof.
  destruct (run_effects history w) as (_ & _ & _ & _ & Hdir & Hcwd & _). done.
Qed.

Lemma cwd_changes_only_by_stdout_witness :
  cwd (self (@run sample_platform
               [DoSendCommand (ToplevelCommand "cd" None None (Some "/tmp"));
                DoFetchNextMessage; DoBackendExits 0]
               started_world))
  = cwd (self started_world).
Proof.
  apply (@cwd_changes_only_by_stdout sample_platform).
  repeat (apply Forall_cons_2; [reflexivity|]). apply Forall_nil_2.
Defined.

(** ** The tick of the Tk main loop *)



(** ** A launch that fails *)

(** X10. When the system does not launch the new backend, [send_command]
    with a [ToplevelCommand] named [Run], [Debug] or [Reset] raises the error
    of the launch after the damage is done: the state is [running], the
    backend that ran is killed and its handle dropped (a backend that had
    ended keeps its handle), the inbox is a new empty one, so the messages
    that waited are gone, and nothing is spawned or written. *)
Theorem send_command_failed_launch `{Platform} (w : World) c f a p :
  c ∈ ["Run"; "Debug"; "Reset"] →
  popen_launches (cmd_line_of (thonny_dir (self w)) (ToplevelCommand c f a p))
    (cwd (self w)) my_env = false →
  fst (send_command (ToplevelCommand c f a p) w) = Raise OSError
  ∧ _state (self (snd (send_command (ToplevelCommand c f a p) w))) = Some "running"
  ∧ _message_queue (self (snd (send_command (ToplevelCommand c f a p) w))) = Some []
  ∧ _proc (self (snd (send_command (ToplevelCommand c f a p) w)))
    = match _proc (self w) with
      | Some old => if poll old is None then None else Some old
      | None => None
      end
  ∧ ∃ before,
      trace (snd (send_command (ToplevelCommand c f a p) w))
      = (trace w ++ before
         ++ match _proc (self w) with
            | Some old => if poll old is None then [ProcKill (pid old)] else []
            | None => []
            end
         ++ [LogStarting (cmd_line_of (thonny_dir (self w)) (ToplevelCommand c f a p))
               (cwd (self w))])%list
      ∧ Forall (λ e, is_process_event e = false ∧ is_stdin_event e = false) before.
Proof.
  intros Hc Hl.
  rewrite !elem_of_cons, elem_of_nil in Hc.
  destruct Hc as [->|[->|[->|[]]]].
  all: match goal with |- context [send_command ?cmd _] => send_cases cmd w end.
  all: try (vm_compute in Hcc; discriminate Hcc).
  all: try discriminate.
  all: try (rewrite Hl in Hlaunch; discriminate Hlaunch).
  all: repeat (split; [done|]).
  all: rewrite <- ?app_assoc; simpl.
  all: first [ eexists [_]; split; [simpl; reflexivity|]
             | eexists [_; _]; split; [simpl; reflexivity|] ].
  all: repeat constructor.
Qed.

Lemma send_command_failed_launch_witness :
  fst (@send_command refusing_platform run_command started_world) = Raise OSError
  ∧ _proc (self (snd (@send_command refusing_platform run_command started_world))) = None
  ∧ _message_queue (self (snd (@send_command refusing_platform run_command started_world)))
    = Some [].
Proof.
  destruct (@send_command_failed_launch refusing_platform started_world
              "Run" (Some "a.py") (Some ["1"; "2"]) None)
    as (Hraise & _ & Hq & Hproc & _).
  - elem_of_list.
  - reflexivity.
  - split; [exact Hraise|]. split; [exact Hproc | exact Hq].
Defined.

(** ** The loop of the output listener *)

Lemma listen_stdout_round `{Platform} (w : World) (line : string) (msg : Message)
    (handle : Popen) (queue : list Message) :
  _proc (self w) = Some handle → _message_queue (self w) = Some queue →
  reads_as line msg →
  ∃ w',
    _listen_stdout_iteration line w = (Ok true, w')
    ∧ _proc (self w') = Some handle
    ∧ _message_queue (self w') = Some (queue ++ [msg])%list
    ∧ _state (self w') = state_after_message (type_of msg) (_state (self w))
    ∧ cwd (self w') = default (cwd (self w)) (msg !! "cwd").
Proof.
  intros Hhandle Hqueue (Hne & Hparsed & [mt Hty]).
  unfold type_of, state_after_message. rewrite Hty. simpl.
  listen_cases line w; simplify_eq/=; try done.
  all: eexists; split; [reflexivity|]; proxy_cbn.
  all: rewrite ?Hcwd; repeat case_decide; done.
Qed.

Lemma listen_stdout_lines `{Platform} (lines : list string) (msgs : list Message) :
  Forall2 reads_as lines msgs →
  ∀ (w : World) (p : Popen) (q : list Message),
    _proc (self w) = Some p → _message_queue (self w) = Some q →
    ∃ w',
      _listen_stdout lines w = (Ok tt, w')
      ∧ _proc (self w') = Some p
      ∧ _message_queue (self w') = Some (q ++ msgs)%list
      ∧ _state (self w')
        = foldl (λ state msg, state_after_message (type_of msg) state) (_state (self w)) msgs
      ∧ cwd (self w') = foldl (λ dir msg, default dir (msg !! "cwd")) (cwd (self w)) msgs.
Proof.
  induction 1 as [|line msg lines msgs Hline Hlines IH]; intros w p q Hp Hq.
  - exists w. rewrite app_nil_r. by repeat split.
  - destruct (listen_stdout_round w line msg p q Hp Hq Hline)
      as (w1 & Hround & Hp1 & Hq1 & Hst1 & Hcwd1).
    destruct (IH w1 p (q ++ [msg])%list Hp1 Hq1) as (w' & Hloop & Hp' & Hq' & Hst' & Hcwd').
    exists w'. cbn [_listen_stdout]. unfold mbind, M_bind. rewrite Hround.
    split; [exact Hloop|]. split; [done|].
    split; [by rewrite Hq', <- app_assoc|].
    split; simpl; [by rewrite Hst', Hst1 | by rewrite Hcwd', Hcwd1].
Qed.

Lemma listen_stdout_end_of_stream `{Platform} (w : World) :
  _listen_stdout_iteration "" w
  = match _proc (self w) with
    | Some _ => (Ok false, w)
    | None => (Raise (AttributeError "stdout"), w)
    end.
Proof.
  destruct w as [[dir tdir proc st q] tr np].
  unfold _listen_stdout_iteration. unfold_proxy. by destruct proc.
Qed.

Lemma listen_stdout_continues `{Platform} (line : string) (w : World) :
  line ≠ "" → fst (_listen_stdout_iteration line w) ≠ Ok false.
Proof. intros Hne. listen_cases line w; done. Qed.

Lemma listen_stdout_eof `{Platform} (lines more : list string) :
  ∀ w, _listen_stdout (lines ++ "" :: more) w
       = match _listen_stdout lines w with
         | (Ok _, w') =>
             match _proc (self w') with
             | Some _ => (Ok tt, w')
             | None => (Raise (AttributeError "stdout"), w')
             end
         | (Raise e, w') => (Raise e, w')
         end
       ∨ ∃ lines1 lines2, lines = (lines1 ++ "" :: lines2)%list.
Proof.
  induction lines as [|line lines IH]; intros w.
  - left. cbn [app _listen_stdout]. unfold mbind, M_bind, mret, M_ret.
    rewrite listen_stdout_end_of_stream. by destruct (_proc (self w)).
  - destruct (decide (line = "")) as [->|Hne]; [right; by exists [], lines|].
    cbn [app _listen_stdout]. unfold mbind, M_bind.
    pose proof (listen_stdout_continues line w Hne) as Hgo.
    destruct (_listen_stdout_iteration line w) as [[[|]|e] w1] eqn:Hround.
    + destruct (IH w1) as [->|(l1 & l2 & ->)]; [by left|].
      right. by exists (line :: l1), l2.
    + done.
    + by left.
Qed.

(** X11. The loop of [_listen_stdout], run on lines that all decode to
    messages with a type, with a process handle and an inbox in place:
    it raises nothing; the messages are appended to the inbox in the order
    of the lines; the state is the one the transitions of the messages lead
    to, taken in order; the tracked directory is the last [cwd] a message
    carried. An empty line after them (the end of the stream) ends the loop:
    what would follow is not read. *)
Theorem listen_stdout_in_order `{Platform} (lines more : list string)
    (msgs : list Message) (w : World) (p : Popen) (q : list Message) :
  _proc (self w) = Some p → _message_queue (self w) = Some q →
  Forall2 reads_as lines msgs →
  fst (_listen_stdout lines w) = Ok tt
  ∧ _message_queue (self (snd (_listen_stdout lines w))) = Some (q ++ msgs)%list
  ∧ _state (self (snd (_listen_stdout lines w)))
    = foldl (λ state msg, state_after_message (type_of msg) state) (_state (self w)) msgs
  ∧ cwd (self (snd (_listen_stdout lines w)))
    = foldl (λ dir msg, default dir (msg !! "cwd")) (cwd (self w)) msgs
  ∧ _listen_stdout (lines ++ "" :: more) w = _listen_stdout lines w.
Proof.
  intros Hp Hq Hlines.
  destruct (listen_stdout_lines lines msgs Hlines w p q Hp Hq)
    as (w' & Hloop & Hp' & Hq' & Hst' & Hcwd').
  rewrite Hloop. do 4 (split; [done|]).
  destruct (listen_stdout_eof lines more w) as [->|(l1 & l2 & ->)].
  - by rewrite Hloop, Hp'.
  - apply Forall2_app_inv_l in Hlines as (m1 & m2 & _ & Hbad & _).
    apply Forall2_cons_inv_l in Hbad as (m & ? & [Hne _] & _). done.
Qed.

Lemma listen_stdout_in_order_witness :
  _message_queue (self (snd (@_listen_stdout sample_platform ["output"; "result"]
                               started_world)))
  = Some [<["cwd" := "/tmp/x"]> (Output "stdout" "hi"); ToplevelResult]
  ∧ _state (self (snd (@_listen_stdout sample_platform ["output"; "result"]
                         started_world)))
    = Some "waiting_toplevel_command".
Proof.
  edestruct (@listen_stdout_in_order sample_platform ["output"; "result"] []
               [<["cwd" := "/tmp/x"]> (Output "stdout" "hi"); ToplevelResult]
               started_world) as (_ & Hq & Hst & _).
  - vm_compute. reflexivity.
  - vm_compute. reflexivity.
  - apply Forall2_cons_2; [|apply Forall2_cons_2; [|apply Forall2_nil_2]].
    + split; [discriminate|]. split; [reflexivity|]. eexists. vm_compute. reflexivity.
    + split; [discriminate|]. split; [reflexivity|]. eexists. reflexivity.
  - split; [exact Hq|]. rewrite Hst. vm_compute. reflexivity.
Defined.

(** ** The handlers of the shell commands *)

Lemma runner_send_command `{Platform} (cmd : Command) (rw : RunnerWorld) :
  Runner.send_command cmd rw
  = (match fst (send_command cmd (_proxy rw)) with
     | Ok a => Returns a
     | Raise e => Raises (ProxyException e)
     end,
     {| _proxy := snd (send_command cmd (_proxy rw)); calls := calls rw |}).
Proof.
  unfold Runner.send_command, on_proxy.
  by destruct (send_command cmd (_proxy rw)) as [[[]|e] w'].
Qed.

Lemma send_command_no_handle `{Platform} (cmd : Command) (w : World) :
  _proc (self w) = None → restarts_backend cmd = false →
  fst (send_command cmd w) = Raise (AttributeError "stdin").
Proof. intros Hnone Hno. send_cases cmd w; done. Qed.


(** X12. [handle_execute_from_shell] on a command line without an argument
    raises the syntax error and does nothing else: no editor is saved,
    nothing is sent. With arguments it saves the editors first and sends a
    [ToplevelCommand] of the parsed name. For [Run], [Debug] and [Reset],
    when the system launches it, the new backend is started on the unquoted
    first argument followed by the other arguments as they are, in the
    tracked directory, and the runner is left with an empty inbox in state
    [running]. For another name nothing is started or killed, and without a
    backend the call raises the attribute error of the missing handle. *)
Theorem handle_execute_from_shell_runs `{Platform} `{ShellSyntax} (cmd_line : string)
    (rw : RunnerWorld) :
  (∀ command,
     parse_shell_command cmd_line = (command, []) →
     Runner.handle_execute_from_shell cmd_line rw
     = (Raises (CommandSyntaxError ["Command '%s' takes at least one argument"; command]),
        rw))
  ∧ (∀ command arg rest,
       parse_shell_command cmd_line = (command, arg :: rest) →
       command ∈ ["Run"; "Debug"; "Reset"] →
       popen_launches
         (backend_cmd_line (thonny_dir (self (_proxy rw))) ++ unquote_path arg :: rest)%list
         (cwd (self (_proxy rw))) my_env = true →
       ∃ new rw',
         Runner.handle_execute_from_shell cmd_line rw = (Returns tt, rw')
         ∧ calls rw' = (calls rw ++ [SaveAllNamedEditors])%list
         ∧ _proc (self (_proxy rw')) = Some new
         ∧ popen_args new
           = (backend_cmd_line (thonny_dir (self (_proxy rw)))
              ++ unquote_path arg :: rest)%list
         ∧ popen_cwd new = cwd (self (_proxy rw))
         ∧ _message_queue (self (_proxy rw')) = Some []
         ∧ _state (self (_proxy rw')) = Some "running")
  ∧ (∀ command arg rest,
       parse_shell_command cmd_line = (command, arg :: rest) →
       command ∉ ["Run"; "Debug"; "Reset"] →
       calls (snd (Runner.handle_execute_from_shell cmd_line rw))
       = (calls rw ++ [SaveAllNamedEditors])%list
       ∧ _proc (self (_proxy (snd (Runner.handle_execute_from_shell cmd_line rw))))
         = _proc (self (_proxy rw))
       ∧ (_proc (self (_proxy rw)) = None →
          fst (Runner.handle_execute_from_shell cmd_line rw)
          = Raises (ProxyException (AttributeError "stdin")))).
Proof.
  unfold Runner.handle_execute_from_shell. split; [|split].
  - intros command ->. done.
  - intros command arg rest -> Hc Hl.
    unfold mbind, R_bind, call. rewrite runner_send_command. cbn [_proxy calls].
    destruct (send_command_restart (_proxy rw) command (Some (unquote_path arg))
                (Some rest) None Hc Hl)
      as (new & Hok & Hproc & Hq & _ & _ & Hargs & _ & Hcwd & _).
    rewrite Hok. eexists new, _. split; [reflexivity|]. cbn [_proxy calls].
    do 4 (split; [done|]). split; [done|].
    rewrite send_command_state. done.
  - intros command arg rest -> Hc.
    unfold mbind, R_bind, call. rewrite runner_send_command. cbn [_proxy calls snd fst].
    assert (restarts_backend
              (ToplevelCommand command (Some (unquote_path arg)) (Some rest) None)
            = false) as Hno.
    { apply no_restart_command_spec. by intros c f a p [= <- <- <- <-]. }
    destruct (send_command_no_restart (_proxy rw) _ Hno) as (Hproc & _).
    split; [done|]. split; [done|].
    intros Hnone. by rewrite (send_command_no_handle _ _ Hnone Hno).
Qed.

Lemma handle_execute_from_shell_runs_witness :
  ∃ new rw',
    @Runner.handle_execute_from_shell sample_platform sample_shell "%Run a.py 1"
      (sample_runner sample_world)
    = (Returns tt, rw')
    ∧ calls rw' = [SaveAllNamedEditors]
    ∧ _proc (self (_proxy rw')) = Some new
    ∧ popen_args new
      = ["/usr/bin/python3"; "-u"; "/opt/thonny/thonny_backend.py"; "a.py"; "1"].
Proof.
  destruct (proj1 (proj2 (@handle_execute_from_shell_runs sample_platform sample_shell
                            "%Run a.py 1" (sample_runner sample_world)))
              "Run" "a.py" ["1"])
    as (new & rw' & Hrun & Hcalls & Hproc & Hargs & _).
  - reflexivity.
  - elem_of_list.
  - reflexivity.
  - exists new, rw'. split; [exact Hrun|]. split; [exact Hcalls|].
    split; [exact Hproc | exact Hargs].
Defined.

(** X13. [_handle_reset_from_shell] fails its assertion on a command that
    is not [Reset], and raises the syntax error when [Reset] comes with
    arguments; in both cases nothing is sent and nothing changes. A bare
    [Reset], when the system launches the backend, starts it with the
    command line of the backend alone, no script, in the tracked directory,
    and leaves an empty inbox and the state [running]. *)
Theorem handle_reset_from_shell_resets `{Platform} `{ShellSyntax} (cmd_line : string)
    (rw : RunnerWorld) :
  (∀ command args,
     parse_shell_command cmd_line = (command, args) → command ≠ "Reset" →
     Runner._handle_reset_from_shell cmd_line rw = (Raises AssertionError, rw))
  ∧ (∀ arg rest,
       parse_shell_command cmd_line = ("Reset", arg :: rest) →
       Runner._handle_reset_from_shell cmd_line rw
       = (Raises (CommandSyntaxError ["Command 'Reset' doesn't take arguments"]), rw))
  ∧ (parse_shell_command cmd_line = ("Reset", []) →
     popen_launches (backend_cmd_line (thonny_dir (self (_proxy rw))))
       (cwd (self (_proxy rw))) my_env = true →
     ∃ new rw',
       Runner._handle_reset_from_shell cmd_line rw = (Returns tt, rw')
       ∧ calls rw' = calls rw
       ∧ _proc (self (_proxy rw')) = Some new
       ∧ popen_args new = backend_cmd_line (thonny_dir (self (_proxy rw)))
       ∧ popen_cwd new = cwd (self (_proxy rw))
       ∧ _message_queue (self (_proxy rw')) = Some []
       ∧ _state (self (_proxy rw')) = Some "running").
Proof.
  unfold Runner._handle_reset_from_shell. split; [|split].
  - intros command args -> Hne. by destruct (decide (command = "Reset")).
  - intros arg rest ->. by destruct (decide ("Reset" = "Reset")).
  - intros -> Hl. destruct (decide ("Reset" = "Reset")); [|done].
    rewrite runner_send_command.
    destruct (send_command_restart (_proxy rw) "Reset" None None None) as
      (new & Hok & Hproc & Hq & _ & _ & Hargs & _ & Hcwd & _); [elem_of_list|done|].
    rewrite Hok. eexists new, _. split; [reflexivity|]. cbn [_proxy calls].
    do 5 (split; [done|]). by rewrite send_command_state.
Qed.

Lemma handle_reset_from_shell_resets_witness :
  ∃ new rw',
    @Runner._handle_reset_from_shell sample_platform sample_shell "%Reset"
      (sample_runner started_world)
    = (Returns tt, rw')
    ∧ _proc (self (_proxy rw')) = Some new
    ∧ popen_args new = ["/usr/bin/python3"; "-u"; "/opt/thonny/thonny_backend.py"]
    ∧ _message_queue (self (_proxy rw')) = Some [].
Proof.
  destruct (proj2 (proj2 (@handle_reset_from_shell_resets sample_platform sample_shell
                            "%Reset" (sample_runner started_world))))
    as (new & rw' & Hrun & _ & Hproc & Hargs & _ & Hq & _).
  - reflexivity.
  - reflexivity.
  - exists new, rw'. split; [exact Hrun|]. split; [exact Hproc|].
    split; [exact Hargs | exact Hq].
Defined.



(** X15. [_cmd_reset] goes through the shell only in the state
    [waiting_toplevel_command]: it submits the one line [%Reset] and leaves
    the proxy alone. In every other state it sends the [Reset] command
    itself, nothing is submitted to the shell, and, when the system launches
    the backend, the backend that ran is killed, a new one is started
    without a script, the inbox is empty and the state is [running]. *)
Theorem cmd_reset_restarts `{Platform} (rw : RunnerWorld) :
  (_state (self (_proxy rw)) = Some "waiting_toplevel_command" →
   Runner._cmd_reset rw
   = (Returns tt,
      {| _proxy := _proxy rw;
         calls := (calls rw ++ [SubmitCommand ("%Reset" ++ newline)])%list |}))
  ∧ (_state (self (_proxy rw)) ≠ Some "waiting_toplevel_command" →
     popen_launches (backend_cmd_line (thonny_dir (self (_proxy rw))))
       (cwd (self (_proxy rw))) my_env = true →
     ∃ new rw',
       Runner._cmd_reset rw = (Returns tt, rw')
       ∧ calls rw' = calls rw
       ∧ _proc (self (_proxy rw')) = Some new
       ∧ popen_args new = backend_cmd_line (thonny_dir (self (_proxy rw)))
       ∧ _message_queue (self (_proxy rw')) = Some []
       ∧ _state (self (_proxy rw')) = Some "running"
       ∧ (∀ old, _proc (self (_proxy rw)) = Some old → poll old = None →
            ProcKill (pid old) ∈ trace (_proxy rw'))).
Proof.
  unfold Runner._cmd_reset, Runner.get_state, get_state, gets, on_proxy.
  unfold mbind, R_bind. cbn [_proxy calls]. split.
  - intros Hst. destruct (decide (_state (self (_proxy rw)) = Some "waiting_toplevel_command"));
      [|done]. unfold call. cbn [_proxy calls]. by destruct rw.
  - intros Hst Hl.
    destruct (decide (_state (self (_proxy rw)) = Some "waiting_toplevel_command"));
      [done|].
    assert ({| _proxy := _proxy rw; calls := calls rw |} = rw) as -> by by destruct rw.
    rewrite runner_send_command.
    destruct (send_command_restart (_proxy rw) "Reset" None None None) as
      (new & Hok & Hproc & Hq & _ & _ & Hargs & _ & _ & before & after & Htrace & _);
      [elem_of_list|done|].
    rewrite Hok. eexists new, _. split; [reflexivity|]. cbn [_proxy calls].
    do 4 (split; [done|]). split; [by rewrite send_command_state|].
    intros old Hold Hrun. rewrite Htrace, Hold, Hrun.
    rewrite !elem_of_app. right. right. left. apply list_elem_of_here.
Qed.

Lemma cmd_reset_restarts_witness :
  ∃ new rw',
    @Runner._cmd_reset sample_platform (sample_runner started_world) = (Returns tt, rw')
    ∧ _proc (self (_proxy rw')) = Some new
    ∧ pid new = 1
    ∧ ProcKill 0 ∈ trace (_proxy rw').
Proof.
  destruct (proj2 (@cmd_reset_restarts sample_platform (sample_runner started_world)))
    as (new & rw' & Hrun & _ & Hproc & _ & _ & _ & Hkill).
  - discriminate.
  - reflexivity.
  - exists new, rw'. split; [exact Hrun|]. split; [exact Hproc|]. split.
    + assert (rw' = snd (@Runner._cmd_reset sample_platform (sample_runner started_world)))
        as Hrw by (by rewrite Hrun).
      rewrite Hrw in Hproc. vm_compute in Hproc. by injection Hproc as <-.
    + destruct (_proc (self (_proxy (sample_runner started_world)))) as [old|] eqn:Hold;
        [|vm_compute in Hold; discriminate Hold].
      assert (pid old = 0 ∧ poll old = None) as [Hpid Hpoll]
          by (vm_compute in Hold; injection Hold as <-; split; reflexivity).
      rewrite <- Hpid. exact (Hkill old eq_refl Hpoll).
Defined.

(** ** Enabling the run command *)


(** ** What a poll leaves alone *)





(** ** From the output of the backend to the workbench *)

Lemma well_formed_reads `{Platform} (lines : list string) (msgs : list Message) :
  Forall2 reads_as lines msgs →
  Forall (λ msg, msg !! "message_type" = Some "Output" →
                 is_Some (msg !! "stream_name") ∧ is_Some (msg !! "data")) msgs →
  Forall well_formed msgs.
Proof.
  induction 1 as [|line msg lines msgs (_ & _ & [mt Hmt]) _ IH]; [done|].
  intros [Hout Hrest]%Forall_cons. apply Forall_cons. split; [|by apply IH].
  exists mt. split; [done|]. intros ->. by apply Hout.
Qed.

(** X18. From the backend to the workbench. The lines of the backend are
    read by the loop of [_listen_stdout] into an empty inbox, and then
    [_poll_vm_messages] runs; the lines decode to messages with a type, the
    output among them with a stream and data. Then the poll returns, the
    inbox is empty again, and the messages handed to [event_generate] carry
    on every stream the text the backend wrote on it, and the messages that
    are not output as they were decoded and in the order of their lines. *)
Theorem backend_output_reaches_workbench `{Platform} (lines : list string)
    (msgs : list Message) (w : World) (p : Popen) (cs0 : list RunnerCall) :
  _proc (self w) = Some p → _message_queue (self w) = Some [] →
  Forall2 reads_as lines msgs →
  Forall (λ msg, msg !! "message_type" = Some "Output" →
                 is_Some (msg !! "stream_name") ∧ is_Some (msg !! "data")) msgs →
  ∃ cs rw',
    Runner._poll_vm_messages {| _proxy := snd (_listen_stdout lines w); calls := cs0 |}
    = Some (Returns tt, rw')
    ∧ calls rw' = (cs0 ++ cs ++ [After 50 "_poll_vm_messages"])%list
    ∧ _message_queue (self (_proxy rw')) = Some []
    ∧ (∀ s, stream_text s (generated cs) = stream_text s msgs)
    ∧ other_messages (generated cs) = other_messages msgs
    ∧ fully_coalesced (generated cs).
Proof.
  intros Hp Hq Hlines Hout.
  destruct (listen_stdout_lines lines msgs Hlines w p [] Hp Hq)
    as (w' & Hloop & _ & Hq' & _).
  rewrite Hloop. cbn [snd]. rewrite app_nil_l in Hq'.
  pose proof (well_formed_reads lines msgs Hlines Hout) as Hwf.
  destruct (poll_loop_drains (S (length msgs)) {| _proxy := w'; calls := cs0 |} msgs
              Hq' Hwf (Nat.lt_succ_diag_r _))
    as (cs & Hpoll & Htext & Hothers & _ & Hco & _).
  unfold Runner._poll_vm_messages, Runner.inbox_size. cbn [_proxy]. rewrite Hq', Hpoll.
  eexists cs, _. split; [reflexivity|]. unfold call. cbn [_proxy calls].
  split; [by rewrite <- app_assoc|]. by repeat split.
Qed.

Lemma backend_output_reaches_workbench_witness :
  ∃ cs rw',
    Runner._poll_vm_messages
      {| _proxy := snd (@_listen_stdout sample_platform ["output"; "output"; "result"]
                          started_world);
         calls := [] |}
    = Some (Returns tt, rw')
    ∧ calls rw' = (cs ++ [After 50 "_poll_vm_messages"])%list
    ∧ stream_text "stdout" (generated cs) = "hihi".
Proof.
  edestruct (@backend_output_reaches_workbench sample_platform
               ["output"; "output"; "result"]
               [<["cwd" := "/tmp/x"]> (Output "stdout" "hi");
                <["cwd" := "/tmp/x"]> (Output "stdout" "hi"); ToplevelResult]
               started_world) as (cs & rw' & Hpoll & Hcalls & _ & Htext & _).
  - vm_compute. reflexivity.
  - vm_compute. reflexivity.
  - repeat (apply Forall2_cons_2;
              [split; [discriminate|]; split; [reflexivity|];
               eexists; vm_compute; reflexivity|]).
    apply Forall2_nil_2.
  - repeat (apply Forall_cons_2;
              [intros _; split; eexists; vm_compute; reflexivity|]).
    apply Forall_cons_2; [|apply Forall_nil_2]. intros Hout. vm_compute in Hout.
    discriminate Hout.
  - exists cs, rw'. split; [exact Hpoll|]. split; [exact Hcalls|].
    rewrite Htext. vm_compute. reflexivity.
Defined.
